(** * archivecli: URL validation, archive lookup and the domain blocklist

    A shallow embedding of the Python package [archivecli]
    (validators.py, domain_blocker.py, archive_service.py,
    browser_handler.py, archive.py, cli.py, exceptions.py) and the
    properties of its specification that were checked against it.

    Conventions of the embedding.
    - A Python [str] is a Rocq [string]; a character stands for the code
      point of the same number (0..255).  [str.lower], [str.isalpha],
      UTF-8 encoding and the character classes of [urllib.parse] are
      written out for these code points.
    - A Python [int] is a [Z].
    - An exception is a value [exn]: its class and the text [str(e)]
      gives.  [except C] catches the instances of [C], that is the
      classes below [C] in the class hierarchy ([issubclass]).
    - Code that talks to the outside (requests.head, requests.get, the
      web browser, the file system) runs in the monad [M]: the outside
      is an environment [Env] of answers, and every call is recorded in
      a trace of events, so that "no request was made" is a statement
      about the trace.
    - Calls to the logger are left out: they neither return a value
      that is used nor raise. *)

From Stdlib Require Import ZArith NArith Ascii String List Bool Lia.
From Stdlib Require Import DecimalString DecimalZ.
From stdpp Require Import base gmap strings sets.

Local Open Scope Z_scope.

(* ===================================================================== *)
(** ** Python strings *)
(* ===================================================================== *)

Module Str.

Definition code (c : ascii) : N := N_of_ascii c.

Definition between (lo hi : N) (c : ascii) : bool :=
  (lo <=? code c)%N && (code c <=? hi)%N.

Definition is_ascii (c : ascii) : bool := (code c <? 128)%N.
Definition is_upper (c : ascii) : bool := between 65 90 c.
Definition is_lower (c : ascii) : bool := between 97 122 c.
Definition is_digit (c : ascii) : bool := between 48 57 c.
(** [c.isascii() and c.isalpha()] *)
Definition is_ascii_alpha (c : ascii) : bool := is_upper c || is_lower c.
(** membership in '0123456789ABCDEFabcdef' *)
Definition is_hex_digit (c : ascii) : bool :=
  is_digit c || between 65 70 c || between 97 102 c.

(** [str.lower] on one code point below 256: the ASCII capitals and
    the capitals U+00C0..U+00DE, the multiplication sign U+00D7 apart. *)
Definition lower_char (c : ascii) : ascii :=
  if is_upper c || (between 192 222 c && negb (code c =? 215)%N)
  then ascii_of_N (code c + 32) else c.

Fixpoint lower (s : string) : string :=
  match s with
  | EmptyString => EmptyString
  | String c s' => String (lower_char c) (lower s')
  end.

(** [not s] *)
Definition is_empty (s : string) : bool :=
  match s with EmptyString => true | _ => false end.

(** [s.startswith(p)] *)
Fixpoint startswith (s p : string) : bool :=
  match p, s with
  | EmptyString, _ => true
  | String _ _, EmptyString => false
  | String a p', String b s' => Ascii.eqb a b && startswith s' p'
  end.

(** [needle in hay] *)
Fixpoint contains (hay needle : string) : bool :=
  startswith hay needle ||
  match hay with
  | EmptyString => false
  | String _ hay' => contains hay' needle
  end.

(** [c in s] for one character *)
Fixpoint has_char (c : ascii) (s : string) : bool :=
  match s with
  | EmptyString => false
  | String a s' => Ascii.eqb a c || has_char c s'
  end.

(** [s[n:]] and [s[:n]] *)
Fixpoint drop (n : nat) (s : string) : string :=
  match n, s with
  | O, _ => s
  | S _, EmptyString => EmptyString
  | S n', String _ s' => drop n' s'
  end.

Fixpoint take (n : nat) (s : string) : string :=
  match n, s with
  | O, _ => EmptyString
  | S _, EmptyString => EmptyString
  | S n', String c s' => String c (take n' s')
  end.

(** [s.find(c)]: [None] stands for -1 *)
Fixpoint find (c : ascii) (s : string) : option nat :=
  match s with
  | EmptyString => None
  | String a s' =>
      if Ascii.eqb a c then Some O
      else match find c s' with Some i => Some (S i) | None => None end
  end.

(** the first index at which [p] holds *)
Fixpoint find_if (p : ascii -> bool) (s : string) : option nat :=
  match s with
  | EmptyString => None
  | String a s' =>
      if p a then Some O
      else match find_if p s' with Some i => Some (S i) | None => None end
  end.

(** [s.rfind(c)] *)
Fixpoint rfind (c : ascii) (s : string) : option nat :=
  match s with
  | EmptyString => None
  | String a s' =>
      match rfind c s' with
      | Some i => Some (S i)
      | None => if Ascii.eqb a c then Some O else None
      end
  end.

Fixpoint forallb (p : ascii -> bool) (s : string) : bool :=
  match s with
  | EmptyString => true
  | String a s' => p a && forallb p s'
  end.

(** [s.lstrip(chars)] for a set of characters given as a predicate *)
Fixpoint lstrip (p : ascii -> bool) (s : string) : string :=
  match s with
  | EmptyString => EmptyString
  | String a s' => if p a then lstrip p s' else s
  end.

(** [s.replace(c, "")] for each character [c] selected by [p] *)
Fixpoint remove (p : ascii -> bool) (s : string) : string :=
  match s with
  | EmptyString => EmptyString
  | String a s' => if p a then remove p s' else String a (remove p s')
  end.

(** [s.split(c)] *)
Fixpoint split (c : ascii) (s : string) : list string :=
  match s with
  | EmptyString => [EmptyString]
  | String a s' =>
      if Ascii.eqb a c then EmptyString :: split c s'
      else match split c s' with
           | [] => [String a EmptyString]
           | w :: ws => String a w :: ws
           end
  end.

(** [s.partition(c)]: the text before the first [c], whether [c] was
    found, and the text after it *)
Definition partition (c : ascii) (s : string) : string * bool * string :=
  match find c s with
  | Some i => (take i s, true, drop (S i) s)
  | None => (s, false, EmptyString)
  end.

(** [s.rpartition(c)[2]] *)
Definition after_last (c : ascii) (s : string) : string :=
  match rfind c s with
  | Some i => drop (S i) s
  | None => s
  end.

(** [str(n)] for an int *)
Definition of_Z (n : Z) : string := NilEmpty.string_of_int (Z.to_int n).

(** ['{:02X}'.format(b)] for a byte *)
Definition hex_digit (n : N) : ascii :=
  if (n <? 10)%N then ascii_of_N (48 + n) else ascii_of_N (55 + n).

Definition hex2 (b : N) : string :=
  String (hex_digit (b / 16)) (String (hex_digit (b mod 16)) EmptyString).

(** [c.encode('utf-8')] for a code point below 256 *)
Definition utf8 (c : ascii) : list N :=
  let n := code c in
  if (n <? 128)%N then [n]
  else [(192 + n / 64)%N; (128 + n mod 64)%N].

End Str.

(* ===================================================================== *)
(** ** Exceptions *)
(* ===================================================================== *)

(** The exception classes the package defines, raises or catches.  Every
    one of them derives from [Exception].  The SystemExit of the
    argument parser, which is outside [Exception], is an ending of its
    own in [cli.main_argv]. *)
Inductive exn_class : Set :=
  (* builtins *)
  | Exception | ValueError | TypeError | AttributeError | KeyError
  | OSError (* IOError is the same class *)
  | JSONDecodeError (* a ValueError *)
  | UnicodeDecodeError (* a ValueError *)
  (* requests.exceptions: RequestException is an IOError *)
  | RequestException | ConnectionError | Timeout | TooManyRedirects | SSLError
  (* webbrowser.Error *)
  | WebbrowserError
  (* archivecli.exceptions *)
  | ArchiveCliError | URLError
  | Exc_URLValidationError | Exc_URLReachabilityError
  | ArchiveServiceError | ArchiveNotFoundError | ArchiveCreationError
  | ArchiveServiceUnavailableError
  | Exc_BrowserError | ConfigurationError
  (* classes that validators.py, domain_blocker.py and browser_handler.py
     define for themselves, directly under Exception *)
  | Val_URLValidationError | Val_URLReachabilityError
  | DomainBlockerError
  | Bro_BrowserError.

#[global] Instance exn_class_eq_dec : EqDecision exn_class.
Proof. solve_decision. Defined.

(** The direct base class, as the [class] statements give it.  Classes
    that no handler names are skipped: KeyError is put under Exception
    (it is a LookupError), UnicodeDecodeError under ValueError (it is a
    UnicodeError), and the requests classes ConnectTimeout and
    ReadTimeout are instances of [Timeout]. *)
Definition base_class (c : exn_class) : option exn_class :=
  match c with
  | Exception => None
  | ValueError | TypeError | AttributeError | KeyError | OSError => Some Exception
  | JSONDecodeError | UnicodeDecodeError => Some ValueError
  | RequestException => Some OSError
  | ConnectionError | Timeout | TooManyRedirects => Some RequestException
  | SSLError => Some ConnectionError
  | WebbrowserError => Some Exception
  | ArchiveCliError => Some Exception
  | URLError | ArchiveServiceError | Exc_BrowserError | ConfigurationError =>
      Some ArchiveCliError
  | Exc_URLValidationError | Exc_URLReachabilityError => Some URLError
  | ArchiveNotFoundError | ArchiveCreationError
  | ArchiveServiceUnavailableError => Some ArchiveServiceError
  | Val_URLValidationError | Val_URLReachabilityError
  | DomainBlockerError | Bro_BrowserError => Some Exception
  end.

Fixpoint below (fuel : nat) (c d : exn_class) : bool :=
  bool_decide (c = d) ||
  match fuel, base_class c with
  | S fuel', Some b => below fuel' b d
  | _, _ => false
  end.

(** [issubclass(c, d)]; no chain of base classes is longer than four. *)
Definition issubclass (c d : exn_class) : bool := below 4 c d.

(** An exception value: its class and [str(e)]. *)
Record exn : Set := mk_exn { exn_cls : exn_class; exn_msg : string }.

(** [isinstance(e, (c1, c2, ...))] *)
Definition isinstance (e : exn) (cs : list exn_class) : bool :=
  existsb (issubclass (exn_cls e)) cs.

(** Outcome of a Python computation: a value, or a raised exception. *)
Inductive result (A : Type) : Type :=
  | Return (a : A)
  | Raise (e : exn).
Arguments Return {A} a.
Arguments Raise {A} e.

(** One [except (c1, c2, ...) as e: handler] clause. *)
Definition clause (R : Type) : Type := list exn_class * (exn -> R).

(** The first clause that matches the exception, as Python tries them
    in order. *)
Fixpoint first_match {R : Type} (cs : list (clause R)) (e : exn) : option R :=
  match cs with
  | [] => None
  | (classes, handler) :: cs' =>
      if isinstance e classes then Some (handler e) else first_match cs' e
  end.

Module Pure.
Definition bind {A B : Type} (r : result A) (k : A -> result B) : result B :=
  match r with
  | Return a => k a
  | Raise e => Raise e
  end.

(** [try: body  except ...] for code without outside effects *)
Definition try_except {A : Type} (body : result A)
    (cs : list (clause (result A))) : result A :=
  match body with
  | Return a => Return a
  | Raise e =>
      match first_match cs e with
      | Some handled => handled
      | None => Raise e
      end
  end.
End Pure.

(* ===================================================================== *)
(** ** The standard library functions the package calls *)
(* ===================================================================== *)

Module urllib_parse.

Record ParseResult : Set := mk_ParseResult {
  scheme : string; netloc : string; path : string;
  params : string; query : string; fragment : string }.

Definition scheme_chars (c : ascii) : bool :=
  Str.is_lower c || Str.is_upper c || Str.is_digit c ||
  Ascii.eqb c "+" || Ascii.eqb c "-" || Ascii.eqb c ".".

(** _WHATWG_C0_CONTROL_OR_SPACE *)
Definition c0_control_or_space (c : ascii) : bool := (Str.code c <=? 32)%N.

(** _UNSAFE_URL_BYTES_TO_REMOVE: tab, carriage return, line feed *)
Definition unsafe_url_byte (c : ascii) : bool :=
  (Str.code c =? 9)%N || (Str.code c =? 13)%N || (Str.code c =? 10)%N.

Definition uses_params : list string :=
  [ ""; "ftp"; "hdl"; "prospero"; "http"; "imap"; "https"; "shttp"; "rtsp";
    "rtspu"; "sip"; "sips"; "mms"; "sftp"; "tel" ]%string.

(** ipaddress.IPv4Address._parse_octet succeeds *)
Definition octet_ok (o : string) : bool :=
  negb (Str.is_empty o) && Str.forallb Str.is_digit o &&
  (String.length o <=? 3)%nat &&
  (String.eqb o "0" || negb (Str.startswith o "0")) &&
  match NilZero.int_of_string o with
  | Some d => (Z.of_int d <=? 255)
  | None => false
  end.

(** ipaddress.IPv4Address(s) succeeds *)
Definition ipv4_ok (s : string) : bool :=
  negb (Str.has_char "/" s) && negb (Str.is_empty s) &&
  let octets := Str.split "." s in
  (length octets =? 4)%nat && List.forallb octet_ok octets.

(** ipaddress.IPv6Address._parse_hextet succeeds *)
Definition hextet_ok (h : string) : bool :=
  Str.forallb Str.is_hex_digit h && (String.length h <=? 4)%nat &&
  negb (Str.is_empty h).

(** the indices 1 <= i < len(parts) - 1 with an empty part *)
Definition inner_empty (parts : list string) : list nat :=
  List.filter
    (fun i => Str.is_empty (nth i parts "x"%string))
    (seq 1 (length parts - 2)).

(** ipaddress.IPv6Address._ip_int_from_string succeeds *)
Definition ipv6_int_ok (ip_str : string) : bool :=
  negb (Str.is_empty ip_str) &&
  let parts := Str.split ":" ip_str in
  (3 <=? length parts)%nat &&
  let last_part := List.last parts ""%string in
  let v4_suffix := Str.has_char "." last_part in
  (negb v4_suffix || ipv4_ok last_part) &&
  (* an IPv4 suffix is replaced by its two hextets, which always parse *)
  let parts :=
    if v4_suffix then removelast parts ++ ["0"; "0"]%string else parts in
  let n := length parts in
  (n <=? 9)%nat &&
  let first_empty := Str.is_empty (nth 0 parts "x"%string) in
  let last_empty := Str.is_empty (List.last parts "x"%string) in
  match inner_empty parts with
  | [] =>
      (n =? 8)%nat && negb first_empty && negb last_empty &&
      List.forallb hextet_ok parts
  | [skip_index] =>
      let parts_hi := if first_empty then (skip_index - 1)%nat else skip_index in
      let parts_lo :=
        if last_empty then (n - skip_index - 1 - 1)%nat
        else (n - skip_index - 1)%nat in
      (negb first_empty || (parts_hi =? 0)%nat) &&
      (negb last_empty || (parts_lo =? 0)%nat) &&
      (1 <=? 8 - (parts_hi + parts_lo))%nat &&
      List.forallb hextet_ok (firstn parts_hi parts) &&
      List.forallb hextet_ok (skipn (n - parts_lo) parts)
  | _ => false
  end.

(** ipaddress.IPv6Address(s) succeeds *)
Definition ipv6_ok (s : string) : bool :=
  negb (Str.has_char "/" s) &&
  match Str.partition "%" s with
  | (addr, false, _) => ipv6_int_ok addr
  | (addr, true, scope_id) =>
      negb (Str.is_empty scope_id) && negb (Str.has_char "%" scope_id) &&
      ipv6_int_ok addr
  end.

(** re.match(r"\Av[a-fA-F0-9]+\..+\Z", hostname): after the "v", one or
    more hex digits, a dot, and one or more characters none of which is
    a line feed *)
Definition ipvfuture_ok (hostname : string) : bool :=
  match hostname with
  | String "v" rest =>
      match Str.find_if (fun c => negb (Str.is_hex_digit c)) rest with
      | Some (S i) =>
          Str.startswith (Str.drop (S i) rest) "." &&
          negb (Str.is_empty (Str.drop (S (S i)) rest)) &&
          negb (Str.has_char "010" (Str.drop (S (S i)) rest))
      | _ => false
      end
  | _ => false
  end.

(** _check_bracketed_host does not raise: an IPvFuture literal, or an
    address that ipaddress.ip_address reads as IPv6 and not as IPv4 *)
Definition check_bracketed_host (hostname : string) : bool :=
  if Str.startswith hostname "v" then ipvfuture_ok hostname
  else negb (ipv4_ok hostname) && ipv6_ok hostname.

(** _check_bracketed_netloc does not raise *)
Definition check_bracketed_netloc (netloc : string) : bool :=
  let hostname_and_port := Str.after_last "@" netloc in
  match Str.partition "[" hostname_and_port with
  | (before_bracket, true, bracketed) =>
      let '(hostname, _, port) := Str.partition "]" bracketed in
      Str.is_empty before_bracket &&
      (Str.is_empty port || Str.startswith port ":") &&
      check_bracketed_host hostname
  | (_, false, _) =>
      let '(hostname, _, _) := Str.partition ":" hostname_and_port in
      check_bracketed_host hostname
  end.

(** _splitnetloc(url, 2): the text from index 2 up to the first of
    '/', '?', '#', and the rest *)
Definition splitnetloc2 (url : string) : string * string :=
  let body := Str.drop 2 url in
  let is_delim c := Ascii.eqb c "/" || Ascii.eqb c "?" || Ascii.eqb c "#" in
  match Str.find_if is_delim body with
  | Some i => (Str.take i body, Str.drop i body)
  | None => (body, EmptyString)
  end.

(** _splitparams *)
Definition splitparams (url : string) : string * string :=
  match Str.rfind "/" url with
  | Some j =>
      match Str.find ";" (Str.drop j url) with
      | Some k => (Str.take (j + k) url, Str.drop (S (j + k)) url)
      | None => (url, EmptyString)
      end
  | None =>
      match Str.find ";" url with
      | Some i => (Str.take i url, Str.drop (S i) url)
      (* find gives -1: url[:-1] and url[0:] *)
      | None => (Str.take (String.length url - 1) url, url)
      end
  end.

Definition invalid_ipv6 : exn := mk_exn ValueError "Invalid IPv6 URL".

(** urlparse(url) with the default arguments scheme='' and
    allow_fragments=True: urlsplit, followed by the split of the path
    parameters.  The check of _checknetloc only rejects a netloc whose
    NFKC normal form shows one of '/?#@:' that the netloc itself does
    not have, which no code point below 256 produces. *)
Definition urlparse (url0 : string) : result ParseResult :=
  let url := Str.lstrip c0_control_or_space url0 in
  let url := Str.remove unsafe_url_byte url in
  let '(scheme, url) :=
    match Str.find ":" url, url with
    | Some (S i), String c0 _ =>
        if Str.is_ascii_alpha c0 && Str.forallb scheme_chars (Str.take (S i) url)
        then (Str.lower (Str.take (S i) url), Str.drop (S (S i)) url)
        else (EmptyString, url)
    | _, _ => (EmptyString, url)
    end in
  let '(netloc, url) :=
    if Str.startswith url "//" then splitnetloc2 url else (EmptyString, url) in
  let lb := Str.has_char "[" netloc in
  let rb := Str.has_char "]" netloc in
  if (lb && negb rb) || (rb && negb lb) then Raise invalid_ipv6
  else if lb && rb && negb (check_bracketed_netloc netloc) then
    (* the text of the error differs with the check that fails *)
    Raise invalid_ipv6
  else
    let '(url, fragment) :=
      match Str.partition "#" url with (u, _, f) => (u, f) end in
    let '(url, query) :=
      match Str.partition "?" url with (u, _, q) => (u, q) end in
    let '(url, params) :=
      if existsb (String.eqb scheme) uses_params && Str.has_char ";" url
      then splitparams url else (url, EmptyString) in
    Return (mk_ParseResult scheme netloc url params query fragment).

(** quote(string, safe=''): every byte of the UTF-8 encoding that is
    not in _ALWAYS_SAFE (letters, digits, '_', '.', '-', '~') becomes
    '%XX' *)
Definition always_safe (b : N) : bool :=
  let c := ascii_of_N b in
  Str.is_upper c || Str.is_lower c || Str.is_digit c ||
  Ascii.eqb c "_" || Ascii.eqb c "." || Ascii.eqb c "-" || Ascii.eqb c "~".

Definition quote_byte (b : N) : string :=
  if (b <? 128)%N && always_safe b then String (ascii_of_N b) EmptyString
  else String "%" (Str.hex2 b).

Fixpoint quote (s : string) : string :=
  match s with
  | EmptyString => EmptyString
  | String c s' =>
      fold_right (fun b acc => quote_byte b +:+ acc) (quote s') (Str.utf8 c)
  end.

End urllib_parse.


(* ===================================================================== *)
(** ** The outside world *)
(* ===================================================================== *)

(** What the caller reads of a [requests.Response]: the status and the
    URL of the final response, after the redirects. *)
Module requests.
Record Response : Set := mk_Response { status_code : Z; url : string }.
End requests.
Abbreviation Response := requests.Response.
Abbreviation mk_Response := requests.mk_Response.

(** The answers of the outside: the result of a HEAD or GET request with
    redirects followed (a response, or the exception [requests] raises),
    and of [webbrowser.get().open(url, new=2)]. *)
Record Env : Type := mk_Env {
  requests_head : string -> Z -> result Response;
  requests_get : string -> Z -> result Response;
  webbrowser_open : string -> result bool }.

Inductive event : Set :=
  | Head (target : string) (timeout : Z)
  | Get (target : string) (timeout : Z)
  | BrowserOpen (target : string)
  | Stderr (line : string).

Definition trace : Set := list event.

(** Effectful code: reads the environment, extends the trace. *)
Definition M (A : Type) : Type := Env -> trace -> result A * trace.

Definition ret {A : Type} (a : A) : M A := fun _ t => (Return a, t).
Definition raise {A : Type} (e : exn) : M A := fun _ t => (Raise e, t).
Definition lift {A : Type} (r : result A) : M A := fun _ t => (r, t).

Definition bind {A B : Type} (m : M A) (k : A -> M B) : M B :=
  fun env t =>
    match m env t with
    | (Return a, t') => k a env t'
    | (Raise e, t') => (Raise e, t')
    end.

(** [try: body  except ...]: the handler runs after the effects of the
    part of the body that ran. *)
Definition try_except {A : Type} (body : M A) (cs : list (clause (M A))) : M A :=
  fun env t =>
    match body env t with
    | (Return a, t') => (Return a, t')
    | (Raise e, t') =>
        match first_match cs e with
        | Some handler => handler env t'
        | None => (Raise e, t')
        end
    end.

Definition http_head (target : string) (timeout : Z) : M Response :=
  fun env t => (requests_head env target timeout, t ++ [Head target timeout]).

Definition http_get (target : string) (timeout : Z) : M Response :=
  fun env t => (requests_get env target timeout, t ++ [Get target timeout]).

Definition browser_open (target : string) : M bool :=
  fun env t => (webbrowser_open env target, t ++ [BrowserOpen target]).

(** [print(line, file=sys.stderr)] *)
Definition print_stderr (line : string) : M unit :=
  fun _ t => (Return tt, t ++ [Stderr line]).

(** Effectful code only ever extends the trace. *)
Definition appends {A : Type} (m : M A) : Prop :=
  forall env t, exists suffix, snd (m env t) = t ++ suffix.

Declare Scope py_scope.
Delimit Scope py_scope with py.
Notation "x <- m ;; k" := (bind m (fun x => k))
  (at level 100, m at next level, right associativity) : py_scope.

(** [x in (a, b, ...)] for strings *)
Definition str_in (x : string) (l : list string) : bool :=
  existsb (String.eqb x) l.

(** The file system, as far as the blocklist uses it: what reading each
    path gives; the paths that cannot be opened for writing; and the
    text of the OSError for a path.  A path that is not in [files]
    cannot be opened (the OSError of a missing file).  A path in [files]
    holds a JSON document, or text that [json.load] rejects (with the
    text of its JSONDecodeError), or it is one for which [open] or the
    read inside [json.load] raises something else: PermissionError, the
    UnicodeDecodeError of bytes that are not UTF-8 text, the ValueError
    of a path with a NUL character.  The documents modelled are built
    from strings, lists and objects; numbers, booleans and null, which
    would put members other than strings into the set that the class
    declares as Set[str], are left out. *)
#[warnings="-register-all"]
Inductive json : Set :=
  | JStr (s : string)
  | JList (items : list json)
  | JDict (members : list (string * json)).

Inductive file : Set :=
  | Document (doc : json)
  | NotJson (why : string)
  | Unreadable (e : exn).

Record FS : Type := mk_FS {
  files : gmap string file;
  unwritable : gset string;
  strerror : string -> string }.

(* ===================================================================== *)
(** ** domain_blocker.py *)
(* ===================================================================== *)

Module domain_blocker.
Import urllib_parse.

Definition DEFAULT_BLOCKED_DOMAINS : gset string :=
  {[ "facebook.com"; "twitter.com"; "instagram.com"; "linkedin.com";
     "accounts.google.com"; "login.yahoo.com" ]}.

(** [dict.get(key, default)] on the members of a parsed object *)
Fixpoint dict_get (members : list (string * json)) (key : string)
    (default : json) : json :=
  match members with
  | [] => default
  | (k, v) :: rest => if String.eqb k key then v else dict_get rest key default
  end.

(** the one-character strings of [s], as iterating a str yields them *)
Fixpoint chars (s : string) : list string :=
  match s with
  | EmptyString => []
  | String c s' => String c EmptyString :: chars s'
  end.

(** [hash(item)] succeeds: lists and dicts are unhashable *)
Definition as_str (item : json) : option string :=
  match item with JStr s => Some s | _ => None end.

(** [set(value)] for the value found under 'blocked_domains': a list
    gives its members, a str its characters, a dict its keys *)
Definition to_set (value : json) : result (gset string) :=
  match value with
  | JList items =>
      match mapM as_str items with
      | Some strs => Return (list_to_set strs)
      | None => Raise (mk_exn TypeError "unhashable type")
      end
  | JStr s => Return (list_to_set (chars s))
  | JDict members => Return (list_to_set (fst <$> members))
  end.

(** [config.get('blocked_domains', [])]: only a dict has [get] *)
Definition config_get (config : json) : result json :=
  match config with
  | JDict members => Return (dict_get members "blocked_domains" (JList []))
  | _ => Raise (mk_exn AttributeError "object has no attribute 'get'")
  end.

(** [open(config_path, 'r')] followed by [json.load(f)] *)
Definition read_json (fs : FS) (config_path : string) : result json :=
  match files fs !! config_path with
  | None => Raise (mk_exn OSError (strerror fs config_path))
  | Some (NotJson why) => Raise (mk_exn JSONDecodeError why)
  | Some (Unreadable e) => Raise e
  | Some (Document doc) => Return doc
  end.

(** [load_config]: the outcome and the set [self.blocked_domains]
    after the call *)
Definition load_config (self : gset string) (config_path : string) (fs : FS)
    : result unit * gset string :=
  let body :=
    Pure.bind (read_json fs config_path) (fun config =>
    Pure.bind (config_get config) (fun value =>
    Pure.bind (to_set value) (fun custom_domains =>
    Return (self ∪ custom_domains)))) in
  match body with
  | Return updated => (Return tt, updated)
  | Raise e =>
      if isinstance e [JSONDecodeError; OSError] then
        (Raise (mk_exn DomainBlockerError
                  ("Failed to load configuration: " +:+ exn_msg e)), self)
      else (Raise e, self)
  end.

(** [DomainBlocker(config_path)]: the new object's set, or the
    exception that leaves no object *)
Definition init (config_path : option string) (fs : FS) : result (gset string) :=
  let self := DEFAULT_BLOCKED_DOMAINS in
  match config_path with
  | None => Return self
  | Some p =>
      if Str.is_empty p then Return self
      else match load_config self p fs with
           | (Return _, self') => Return self'
           | (Raise e, _) => Raise e
           end
  end.

Definition strip_www (domain : string) : string :=
  if Str.startswith domain "www." then Str.drop 4 domain else domain.

Definition is_domain_blocked (self : gset string) (url : string) : result bool :=
  Pure.try_except
    (Pure.bind (urlparse url) (fun parsed =>
     let domain := Str.lower (netloc parsed) in
     let domain := strip_www domain in
     Return (existsb (fun blocked => Str.contains domain blocked)
                     (elements self))))
    [ ([Exception], fun e =>
         Raise (mk_exn DomainBlockerError
                  ("Failed to parse URL: " +:+ exn_msg e))) ].

Definition add_blocked_domain (self : gset string) (domain : string)
    : gset string :=
  {[ Str.lower domain ]} ∪ self.

(** [set.remove] raises KeyError when the member is absent *)
Definition set_remove (s : gset string) (x : string)
    : result unit * gset string :=
  if decide (x ∈ s) then (Return tt, s ∖ {[ x ]})
  else (Raise (mk_exn KeyError x), s).

Definition remove_blocked_domain (self : gset string) (domain : string)
    : result unit * gset string :=
  match set_remove self (Str.lower domain) with
  | (Return _, self') => (Return tt, self')
  | (Raise e, self') =>
      if isinstance e [KeyError] then
        (Raise (mk_exn DomainBlockerError
                  ("Domain " +:+ domain +:+ " is not in the blocked list")),
         self')
      else (Raise e, self')
  end.

(** a copy: a value of the set type *)
Definition get_blocked_domains (self : gset string) : gset string := self.

(** [open(config_path, 'w')] followed by [json.dump(config, f)]: the
    outcome and the file system after it.  The failure modelled is that
    of [open]; a write that fails after the file has been opened is
    not. *)
Definition write_json (fs : FS) (config_path : string) (config : json)
    : result unit * FS :=
  if decide (config_path ∈ unwritable fs) then
    (Raise (mk_exn OSError (strerror fs config_path)), fs)
  else
    (Return tt,
     mk_FS (<[config_path := Document config]> (files fs))
           (unwritable fs) (strerror fs)).

(** [save_config]: the outcome and the file system after the call *)
Definition save_config (self : gset string) (config_path : string) (fs : FS)
    : result unit * FS :=
  let config :=
    JDict [("blocked_domains"%string, JList (JStr <$> elements self))] in
  match write_json fs config_path config with
  | (Return _, fs') => (Return tt, fs')
  | (Raise e, fs') =>
      if isinstance e [OSError] then
        (Raise (mk_exn DomainBlockerError
                  ("Failed to save configuration: " +:+ exn_msg e)), fs')
      else (Raise e, fs')
  end.

End domain_blocker.

(** The file system that a successful [save_config] leaves. *)
Definition fs_after_save (self : gset string) (config_path : string) (fs : FS) : FS :=
  mk_FS (<[config_path :=
             Document (JDict [("blocked_domains"%string,
                               JList (JStr <$> elements self))])]> (files fs))
        (unwritable fs) (strerror fs).

(** What [load_config] adds: the set read from the document under the
    key 'blocked_domains'. *)
Definition parsed_domains (fs : FS) (config_path : string) : result (gset string) :=
  Pure.bind (domain_blocker.read_json fs config_path) (fun config =>
  Pure.bind (domain_blocker.config_get config) domain_blocker.to_set).

(* ===================================================================== *)
(** ** validators.py *)
(* ===================================================================== *)

Module validators.
Import urllib_parse.
Local Open Scope py_scope.

Definition URLValidationError (msg : string) : exn :=
  mk_exn Val_URLValidationError msg.
Definition URLReachabilityError (msg : string) : exn :=
  mk_exn Val_URLReachabilityError msg.

Definition is_valid_scheme (url : string) : result bool :=
  Pure.try_except
    (Pure.bind (urlparse url) (fun parsed =>
     Return (str_in (scheme parsed) ["http"; "https"]%string)))
    [ ([Exception], fun _ => Return false) ].

(** [all([result.scheme, result.netloc])]: both strings are non-empty *)
Definition is_well_formed_url (url : string) : result bool :=
  Pure.try_except
    (Pure.bind (urlparse url) (fun result =>
     Return (negb (Str.is_empty (scheme result)) &&
             negb (Str.is_empty (netloc result)))))
    [ ([Exception], fun _ => Return false) ].

Definition check_url_reachability (url : string) (timeout : Z)
    : M (string * bool) :=
  try_except
    (response <- http_head url timeout ;;
     let final_url := requests.url response in
     if requests.status_code response =? 200 then ret (final_url, true)
     else if requests.status_code response =? 403 then
       raise (URLReachabilityError "Access forbidden")
     else if requests.status_code response =? 404 then
       raise (URLReachabilityError "Page not found")
     else if requests.status_code response >=? 500 then
       raise (URLReachabilityError "Server error occurred")
     else
       raise (URLReachabilityError
                ("Unexpected status code: " +:+ Str.of_Z (requests.status_code response))))
    [ ([Timeout], fun _ => raise (URLReachabilityError "Request timed out"));
      ([TooManyRedirects], fun _ => raise (URLReachabilityError "Too many redirects"));
      ([SSLError], fun _ => raise (URLReachabilityError "SSL verification failed"));
      ([RequestException], fun e =>
         raise (URLReachabilityError ("Request failed: " +:+ exn_msg e))) ].

(** [domain_blocker] is an optional DomainBlocker, given by its set;
    an object of the class is true in a condition, None is not *)
Definition validate_url_with_reachability (url : string) (timeout : Z)
    (domain_blocker : option (gset string)) : M string :=
  well_formed <- lift (is_well_formed_url url) ;;
  if negb well_formed then raise (URLValidationError "Invalid URL format")
  else
    valid_scheme <- lift (is_valid_scheme url) ;;
    if negb valid_scheme then
      raise (URLValidationError "URL must start with http:// or https://")
    else
      blocked <- match domain_blocker with
                 | Some self => lift (domain_blocker.is_domain_blocked self url)
                 | None => ret false
                 end ;;
      if (blocked : bool) then raise (URLValidationError "Domain is blocked")
      else
        r <- check_url_reachability url timeout ;;
        let '(final_url, reachable) := r in
        ret final_url.

Definition validate_url (url : string) : result string :=
  if Str.is_empty url then Raise (URLValidationError "URL cannot be empty")
  else
    Pure.bind (is_valid_scheme url) (fun valid_scheme =>
    if negb valid_scheme then
      Raise (URLValidationError "URL must start with http:// or https://")
    else
      Pure.bind (is_well_formed_url url) (fun well_formed =>
      if negb well_formed then
        Raise (URLValidationError "URL is not well-formed")
      else Return url)).

End validators.

(* ===================================================================== *)
(** ** archive_service.py *)
(* ===================================================================== *)

Module archive_service.
Import urllib_parse.
Local Open Scope py_scope.

Definition BASE_URL : string := "https://archive.is/".
Definition SUBMIT_ENDPOINT : string := "submit/".

(** [urljoin(BASE_URL, f"{SUBMIT_ENDPOINT}?url={encoded_url}")].  The
    reference has no scheme and no authority, its path "submit/" has
    no dot segment, and the encoded text holds none of ':', '/', '?',
    '#', ';'; the base path is "/".  urljoin then yields the base
    followed by the reference. *)
Definition construct_search_url (url : string) : string :=
  let encoded_url := quote url in
  BASE_URL +:+ SUBMIT_ENDPOINT +:+ "?url=" +:+ encoded_url.

Definition not_found : exn :=
  mk_exn ArchiveNotFoundError "No archived version found".

Definition get_latest_archive (url : string) (timeout : Z) : M string :=
  try_except
    (let search_url := construct_search_url url in
     response <- http_get search_url timeout ;;
     if requests.status_code response =? 200 then
       if Str.contains (requests.url response) "archive.is/" &&
          negb (String.eqb (requests.url response) search_url)
       then ret (requests.url response)
       else raise not_found
     else if requests.status_code response =? 404 then raise not_found
     else if requests.status_code response >=? 500 then
       raise (mk_exn ArchiveServiceUnavailableError
                "Archive.is service is temporarily unavailable. Please try again later.")
     else
       raise (mk_exn ArchiveServiceError
                ("Received unexpected response from archive.is (status code: "
                 +:+ Str.of_Z (requests.status_code response) +:+ "). "
                 +:+ "Please try again or report this issue if it persists.")))
    [ ([RequestException], fun e =>
         raise (mk_exn ArchiveServiceError
                  ("Failed to communicate with archive.is: " +:+ exn_msg e))) ].

Definition creation_not_implemented : exn :=
  mk_exn ArchiveCreationError
    ("Archive creation is not yet implemented. "
     +:+ "Please try again later when this feature becomes available.").

Definition get_or_create_archive (url : string) (timeout : Z) : M string :=
  try_except
    (get_latest_archive url timeout)
    [ ([ArchiveNotFoundError], fun _ => raise creation_not_implemented) ].

End archive_service.

(* ===================================================================== *)
(** ** browser_handler.py *)
(* ===================================================================== *)

Module browser_handler.
Import urllib_parse.
Local Open Scope py_scope.

Definition validate_url (url : string) : result bool :=
  Pure.try_except
    (Pure.bind (urlparse url) (fun result =>
     Return (negb (Str.is_empty (scheme result)) &&
             negb (Str.is_empty (netloc result)))))
    [ ([Exception], fun _ => Return false) ].

Definition open_url_in_browser (url : string) : M (bool * string) :=
  valid <- lift (validate_url url) ;;
  if negb valid then ret (false, "Invalid URL format"%string)
  else
    try_except
      (opened <- browser_open url ;;
       if (opened : bool) then ret (true, "URL opened successfully"%string)
       else ret (false, "Failed to open URL"%string))
      [ ([WebbrowserError], fun e =>
           raise (mk_exn Bro_BrowserError ("Browser error: " +:+ exn_msg e)));
        ([Exception], fun e =>
           raise (mk_exn Bro_BrowserError
                    ("Unexpected error opening URL: " +:+ exn_msg e))) ].

End browser_handler.

(* ===================================================================== *)
(** ** archive.py *)
(* ===================================================================== *)

(** The default of every [timeout] parameter. *)
Definition default_timeout : Z := 10.

Module archive.
Local Open Scope py_scope.

(** The classes named in the handlers are those of exceptions.py, as
    the module imports them. *)
Definition archive_url (url : string) (quiet : bool) : M (bool * string) :=
  try_except
    (_ <- validators.validate_url_with_reachability url default_timeout None ;;
     archived_url <- archive_service.get_latest_archive url default_timeout ;;
     r <- browser_handler.open_url_in_browser archived_url ;;
     let '(success, message) := r in
     if (success : bool) then
       ret (true, "Successfully opened archived version: " +:+ archived_url)
     else
       raise (mk_exn Exc_BrowserError ("Failed to open browser: " +:+ message)))
    [ ([Exc_URLValidationError; Exc_URLReachabilityError], fun e =>
         ret (false, exn_msg e));
      ([ArchiveServiceError], fun e => ret (false, exn_msg e));
      ([Exc_BrowserError], fun e => ret (false, exn_msg e));
      ([Exception], fun e =>
         ret (false, "An unexpected error occurred: " +:+ exn_msg e)) ].

End archive.

(* ===================================================================== *)
(** ** cli.py *)
(* ===================================================================== *)

Module cli.
Local Open Scope py_scope.

(** The parsed arguments. *)
Record Namespace : Set := mk_Namespace { url : string; quiet : bool }.

(** [main] from the parsed arguments on; the result is the exit code.
    The classes named in the handlers are those of exceptions.py. *)
Definition main (args : Namespace) : M Z :=
  try_except
    (validated_url <-
       validators.validate_url_with_reachability (url args) default_timeout None ;;
     archive_url <- archive_service.get_latest_archive validated_url default_timeout ;;
     r <- browser_handler.open_url_in_browser archive_url ;;
     let '(success, message) := r in
     if negb success then ret 1 else ret 0)
    [ ([Exc_URLValidationError], fun e =>
         _ <- print_stderr ("Error: Invalid URL format - " +:+ exn_msg e) ;;
         ret 2);
      ([Exc_URLReachabilityError], fun e =>
         _ <- print_stderr ("Error: Could not reach URL - " +:+ exn_msg e) ;;
         ret 3);
      ([ArchiveNotFoundError], fun _ =>
         _ <- print_stderr ("Error: No archived version found for " +:+ url args) ;;
         _ <- print_stderr
                "Tip: You can try again later as the page might be archived in the future." ;;
         ret 4);
      ([ArchiveServiceUnavailableError], fun e =>
         _ <- print_stderr ("Error: Archive.is service unavailable - " +:+ exn_msg e) ;;
         _ <- print_stderr "Tip: Please wait a few minutes and try again." ;;
         ret 5);
      ([ArchiveCreationError], fun e =>
         _ <- print_stderr ("Error: Could not create archive - " +:+ exn_msg e) ;;
         ret 6);
      ([ArchiveServiceError], fun e =>
         _ <- print_stderr ("Error: Archive service error - " +:+ exn_msg e) ;;
         ret 7);
      ([Exc_BrowserError], fun e =>
         _ <- print_stderr ("Error: Could not open browser - " +:+ exn_msg e) ;;
         _ <- print_stderr
                "Tip: Try setting your default browser or manually visit the archive URL." ;;
         ret 8);
      ([ConfigurationError], fun e =>
         _ <- print_stderr ("Error: Configuration error - " +:+ exn_msg e) ;;
         ret 9);
      ([Exception], fun e =>
         _ <- print_stderr ("Error: An unexpected error occurred - " +:+ exn_msg e) ;;
         _ <- print_stderr "This is likely a bug. Please report it to the developers." ;;
         ret 1) ].

(** How a call [main(argv)] ends: [main] returns or raises, or the
    argument parser leaves it by SystemExit with a status. *)
Inductive ending : Set :=
  | Ends (r : result Z)
  | SystemExit (status : Z).

(** [main(argv)].  [parser.parse_args(argv)] is called before the [try]:
    its SystemExit (status 2 with a usage message for arguments that do
    not parse, 0 after --help and --version) leaves [main] at once.
    What argparse makes of an argument list is given by [parse_args]:
    the parsed arguments, or the status of the SystemExit with what the
    parser printed to standard error. *)
Definition main_argv (parse_args : list string -> Namespace + Z * trace)
    (argv : list string) (env : Env) (t : trace) : ending * trace :=
  match parse_args argv with
  | inr (status, printed) => (SystemExit status, t ++ printed)
  | inl args => let '(r, t') := main args env t in (Ends r, t')
  end.

End cli.

(* ===================================================================== *)
(** ** The specification's wording, where it is compared with the code *)
(* ===================================================================== *)

Module Spec.
Import urllib_parse.

(** "still lies on the archive service's host": the authority of the
    location is archive.is *)
Definition on_archive_host (location : string) : bool :=
  match urlparse location with
  | Return parsed => String.eqb (netloc parsed) "archive.is"
  | Raise _ => false
  end.

(** "extracts the host from url, strips a leading www. literal prefix,
    lowercases": the three steps in the order of the sentence *)
Definition stripped_lowercased_host (host : string) : string :=
  Str.lower (domain_blocker.strip_www host).
End Spec.

(** An environment for examples: the two requests are answered as
    given, whatever the target; the browser opens. *)
Definition env_of (head_answer get_answer : result Response) : Env :=
  mk_Env (fun _ _ => head_answer) (fun _ _ => get_answer) (fun _ => Return true).

(** Reading one character back from the front of a percent-encoded
    text: the inverse of what [quote] does to one character, used to
    show that the encoding loses nothing. *)
Definition hex_value (c : ascii) : N :=
  if Str.is_digit c then (Str.code c - 48)%N else (Str.code c - 55)%N.

Definition unquote_first (s : string) : option (ascii * string) :=
  match s with
  | String "%" (String h1 (String l1 rest)) =>
      let b1 := (hex_value h1 * 16 + hex_value l1)%N in
      if (b1 <? 128)%N then Some (ascii_of_N b1, rest)
      else
        match rest with
        | String "%" (String h2 (String l2 rest')) =>
            let b2 := (hex_value h2 * 16 + hex_value l2)%N in
            Some (ascii_of_N ((b1 - 192) * 64 + (b2 - 128)), rest')
        | _ => None
        end
  | String c rest => Some (c, rest)
  | EmptyString => None
  end.

(** The characters [quote] can produce: letters, digits, '_', '.', '-',
    '~' and the percent sign. *)
Definition quoted_char (c : ascii) : bool :=
  Str.is_upper c || Str.is_lower c || Str.is_digit c ||
  Ascii.eqb c "_" || Ascii.eqb c "." || Ascii.eqb c "-" || Ascii.eqb c "~" ||
  Ascii.eqb c "%".

(** The two lines that the last handler of [cli.main] prints. *)
Definition unexpected_error_lines (e : exn) : trace :=
  [ Stderr ("Error: An unexpected error occurred - " +:+ exn_msg e);
    Stderr "This is likely a bug. Please report it to the developers." ].

(* ===================================================================== *)
(** ** Properties *)
(* ===================================================================== *)

(** Case analysis on the test of an [except] clause or of an [if]. *)
Ltac case_handler :=
  match goal with
  | |- context [if ?b then _ else _] => destruct b
  end.

Section Exceptions.

Lemma issubclass_Exception (c : exn_class) : issubclass c Exception = true.
Proof. destruct c; reflexivity. Qed.

(** A clause for [Exception] catches whatever is raised. *)
Lemma first_match_Exception {R : Type} (h : exn -> R) (cs : list (clause R)) e :
  first_match (([Exception], h) :: cs) e = Some (h e).
Proof.
  unfold first_match, isinstance. simpl.
  now rewrite issubclass_Exception.
Qed.

Lemma try_except_Exception_total {A : Type} (body : result A) (a : A) :
  exists v, Pure.try_except body [ ([Exception], fun _ => Return a) ] = Return v.
Proof.
  destruct body as [v | e]; simpl.
  - now exists v.
  - unfold isinstance; simpl. rewrite issubclass_Exception. simpl. now exists a.
Qed.

End Exceptions.

Section Strings.

Lemma of_Z_inj (m n : Z) : Str.of_Z m = Str.of_Z n -> m = n.
Proof.
  unfold Str.of_Z. intros H.
  apply DecimalZ.to_int_inj.
  assert (Hs : Some (Z.to_int m) = Some (Z.to_int n)).
  { rewrite <- !NilEmpty.isi. now rewrite H. }
  now inversion Hs.
Qed.

End Strings.

(** *** The reachability check *)

(** The outcome of [check_url_reachability] on a response. *)
Lemma check_url_reachability_response env url timeout t response :
  requests_head env url timeout = Return response ->
  validators.check_url_reachability url timeout env t =
    (let code := requests.status_code response in
     if code =? 200 then Return (requests.url response, true)
     else if code =? 403 then
       Raise (validators.URLReachabilityError "Access forbidden")
     else if code =? 404 then
       Raise (validators.URLReachabilityError "Page not found")
     else if code >=? 500 then
       Raise (validators.URLReachabilityError "Server error occurred")
     else
       Raise (validators.URLReachabilityError
                ("Unexpected status code: " +:+ Str.of_Z code)),
     t ++ [Head url timeout]).
Proof.
  intros Hprobe.
  unfold validators.check_url_reachability, try_except, bind, http_head.
  rewrite Hprobe. cbv zeta.
  repeat case_handler; reflexivity.
Qed.

(** C7.  Whatever response the HEAD probe brings back, the status alone
    decides the outcome of [check_url_reachability], and exactly one of
    five: 200 gives the pair of the final URL and True; 403 the error
    "Access forbidden"; 404 "Page not found"; every status from 500 on
    (503 among them) "Server error occurred"; and every other status
    "Unexpected status code: " followed by that status, a text from
    which the status can be read back.  One request is made in each
    case. *)
Theorem check_url_reachability_by_status :
  forall (env : Env) (url : string) (timeout : Z) (t : trace) (response : Response),
    requests_head env url timeout = Return response ->
    let code := requests.status_code response in
    let outcome := validators.check_url_reachability url timeout env t in
    snd outcome = t ++ [Head url timeout] /\
    (code = 200 -> fst outcome = Return (requests.url response, true)) /\
    (code = 403 ->
       fst outcome = Raise (validators.URLReachabilityError "Access forbidden")) /\
    (code = 404 ->
       fst outcome = Raise (validators.URLReachabilityError "Page not found")) /\
    (code >= 500 ->
       fst outcome = Raise (validators.URLReachabilityError "Server error occurred")) /\
    (code <> 200 -> code <> 403 -> code <> 404 -> code < 500 ->
       fst outcome =
         Raise (validators.URLReachabilityError
                  ("Unexpected status code: " +:+ Str.of_Z code))) /\
    (forall other : Z,
       "Unexpected status code: " +:+ Str.of_Z other
         = "Unexpected status code: " +:+ Str.of_Z code ->
       other = code).
Proof.
  intros env url timeout t response Hprobe code outcome.
  subst outcome.
  rewrite (check_url_reachability_response _ _ _ _ _ Hprobe).
  fold code. cbn [fst snd].
  split; [reflexivity |].
  split; [intros ->; reflexivity |].
  split; [intros ->; reflexivity |].
  split; [intros ->; reflexivity |].
  split.
  { intros Hge.
    destruct (code =? 200) eqn:E200; [apply Z.eqb_eq in E200; lia |].
    destruct (code =? 403) eqn:E403; [apply Z.eqb_eq in E403; lia |].
    destruct (code =? 404) eqn:E404; [apply Z.eqb_eq in E404; lia |].
    destruct (code >=? 500) eqn:E500; [reflexivity |].
    rewrite Z.geb_leb in E500. apply Z.leb_gt in E500. lia. }
  split.
  { intros H200 H403 H404 Hlt.
    apply Z.eqb_neq in H200, H403, H404. rewrite H200, H403, H404.
    destruct (code >=? 500) eqn:E500; [| reflexivity].
    rewrite Z.geb_leb in E500. apply Z.leb_le in E500. lia. }
  intros other Htext. apply String.app_inj in Htext. now apply of_Z_inj.
Qed.

Lemma check_url_reachability_by_status_witness :
  let env := env_of (Return (mk_Response 503 "https://example.com/")) (Raise (mk_exn Timeout "")) in
  let outcome := validators.check_url_reachability "https://example.com" 10 env [] in
  snd outcome = [Head "https://example.com" 10] /\
  fst outcome = Raise (validators.URLReachabilityError "Server error occurred").
Proof.
  intros env outcome.
  destruct (check_url_reachability_by_status env "https://example.com" 10 []
              (mk_Response 503 "https://example.com/") eq_refl)
    as (Htrace & _ & _ & _ & H500 & _).
  split; [exact Htrace | apply H500; simpl; lia].
Defined.

(** *** The blocklist *)

Lemma set_remove_absent (s : gset string) (x : string) :
  x ∉ s -> domain_blocker.set_remove s x = (Raise (mk_exn KeyError x), s).
Proof.
  intros Hx. unfold domain_blocker.set_remove.
  destruct (decide (x ∈ s)) as [Hin | _]; [contradiction | reflexivity].
Qed.

Lemma set_remove_present (s : gset string) (x : string) :
  x ∈ s -> domain_blocker.set_remove s x = (Return tt, s ∖ {[ x ]}).
Proof.
  intros Hx. unfold domain_blocker.set_remove.
  destruct (decide (x ∈ s)) as [_ | Hout]; [reflexivity | contradiction].
Qed.

(** C9.  Removing a domain whose lowercased form is not in the set
    raises DomainBlockerError ("Domain ... is not in the blocked list")
    and leaves the set as it was. *)
Theorem remove_absent_domain_fails :
  forall (self : gset string) (domain : string),
    Str.lower domain ∉ self ->
    domain_blocker.remove_blocked_domain self domain =
      (Raise (mk_exn DomainBlockerError
                ("Domain " +:+ domain +:+ " is not in the blocked list")),
       self).
Proof.
  intros self domain Habsent.
  unfold domain_blocker.remove_blocked_domain.
  now rewrite (set_remove_absent _ _ Habsent).
Qed.

Lemma remove_absent_domain_fails_witness :
  domain_blocker.remove_blocked_domain
    domain_blocker.DEFAULT_BLOCKED_DOMAINS "Nonexistent.com" =
    (Raise (mk_exn DomainBlockerError
              "Domain Nonexistent.com is not in the blocked list"),
     domain_blocker.DEFAULT_BLOCKED_DOMAINS).
Proof.
  apply (remove_absent_domain_fails
           domain_blocker.DEFAULT_BLOCKED_DOMAINS "Nonexistent.com").
  vm_compute. intros H. discriminate H.
Defined.

(** Removing a domain that is in the set succeeds and takes it out. *)
Lemma remove_present_domain (self : gset string) (domain : string) :
  Str.lower domain ∈ self ->
  domain_blocker.remove_blocked_domain self domain =
    (Return tt, self ∖ {[ Str.lower domain ]}).
Proof.
  intros Hpresent. unfold domain_blocker.remove_blocked_domain.
  now rewrite (set_remove_present _ _ Hpresent).
Qed.

Lemma mapM_as_str_JStr (l : list string) :
  mapM domain_blocker.as_str (JStr <$> l) = Some l.
Proof.
  induction l as [| x l IH]; [reflexivity |].
  cbn. rewrite IH. reflexivity.
Qed.

Lemma to_set_saved_list (s : gset string) :
  domain_blocker.to_set (JList (JStr <$> elements s)) = Return s.
Proof.
  unfold domain_blocker.to_set. rewrite mapM_as_str_JStr.
  now rewrite list_to_set_elements_L.
Qed.

Lemma load_config_outcome (self : gset string) (config_path : string) (fs : FS) :
  match parsed_domains fs config_path with
  | Return parsed =>
      domain_blocker.load_config self config_path fs = (Return tt, self ∪ parsed)
  | Raise _ =>
      exists e, domain_blocker.load_config self config_path fs = (Raise e, self)
  end.
Proof.
  unfold parsed_domains, domain_blocker.load_config.
  destruct (domain_blocker.read_json fs config_path) as [config | e]; simpl.
  - destruct (domain_blocker.config_get config) as [value | e]; simpl.
    + destruct (domain_blocker.to_set value) as [parsed | e]; simpl.
      * reflexivity.
      * case_handler; eexists; reflexivity.
    + case_handler; eexists; reflexivity.
  - case_handler; eexists; reflexivity.
Qed.

(** The file system after a successful [save_config]. *)
Lemma save_config_writable (self : gset string) (config_path : string) (fs : FS) :
  config_path ∉ unwritable fs ->
  domain_blocker.save_config self config_path fs =
    (Return tt, fs_after_save self config_path fs).
Proof.
  intros Hw. unfold domain_blocker.save_config, domain_blocker.write_json.
  destruct (decide (config_path ∈ unwritable fs)) as [Hin | _];
    [contradiction | reflexivity].
Qed.

Lemma parsed_domains_after_save (self : gset string) (config_path : string) (fs : FS) :
  parsed_domains (fs_after_save self config_path fs) config_path = Return self.
Proof.
  unfold parsed_domains, domain_blocker.read_json, fs_after_save.
  cbn [files]. rewrite lookup_insert_eq.
  cbn [Pure.bind domain_blocker.config_get domain_blocker.dict_get].
  rewrite String.eqb_refl. apply to_set_saved_list.
Qed.

(** C8.  Saving a blocklist to a path that can be written succeeds, and
    loading that file into a fresh blocklist (one that holds the default
    seed) gives a snapshot equal to the union of the saved set and the
    seed; constructing the fresh blocklist from the path does the same.
    In general a successful [load_config] leaves the union of the set it
    found and the domains parsed from the file, and a failed one leaves
    the set as it was: nothing is ever replaced. *)
Theorem save_then_load_is_additive :
  (forall (self : gset string) (config_path : string) (fs : FS),
     config_path ∉ unwritable fs ->
     exists fs' fresh loaded,
       domain_blocker.save_config self config_path fs = (Return tt, fs') /\
       domain_blocker.init None fs' = Return fresh /\
       domain_blocker.load_config fresh config_path fs' = (Return tt, loaded) /\
       domain_blocker.get_blocked_domains loaded =
         self ∪ domain_blocker.DEFAULT_BLOCKED_DOMAINS /\
       (config_path <> ""%string ->
        domain_blocker.init (Some config_path) fs' = Return loaded)) /\
  (forall (self : gset string) (config_path : string) (fs : FS) r self',
     domain_blocker.load_config self config_path fs = (r, self') ->
     self ⊆ self' /\
     match r with
     | Return _ =>
         exists parsed,
           parsed_domains fs config_path = Return parsed /\ self' = self ∪ parsed
     | Raise _ => self' = self
     end).
Proof.
  split.
  - intros self config_path fs Hw.
    pose proof (load_config_outcome domain_blocker.DEFAULT_BLOCKED_DOMAINS
                  config_path (fs_after_save self config_path fs)) as Hload.
    rewrite parsed_domains_after_save in Hload.
    exists (fs_after_save self config_path fs),
           domain_blocker.DEFAULT_BLOCKED_DOMAINS,
           (domain_blocker.DEFAULT_BLOCKED_DOMAINS ∪ self).
    split; [now apply save_config_writable |].
    split; [reflexivity |].
    split; [exact Hload |].
    split; [unfold domain_blocker.get_blocked_domains; apply union_comm_L |].
    intros Hpath. unfold domain_blocker.init.
    destruct config_path as [| c p]; [contradiction |].
    cbn [Str.is_empty]. now rewrite Hload.
  - intros self config_path fs r self' Hload.
    pose proof (load_config_outcome self config_path fs) as Hout.
    destruct (parsed_domains fs config_path) as [parsed | e].
    + rewrite Hload in Hout. injection Hout as -> ->.
      split; [set_solver | eauto].
    + destruct Hout as [e' He']. rewrite Hload in He'. injection He' as -> ->.
      split; [set_solver | reflexivity].
Qed.

Lemma save_then_load_is_additive_witness :
  let fs := mk_FS ∅ ∅ (fun _ => "[Errno 2] No such file or directory"%string) in
  let self :=
    domain_blocker.add_blocked_domain
      domain_blocker.DEFAULT_BLOCKED_DOMAINS "Example.com" in
  exists fs' fresh loaded,
    domain_blocker.save_config self "blocklist.json" fs = (Return tt, fs') /\
    domain_blocker.init None fs' = Return fresh /\
    domain_blocker.load_config fresh "blocklist.json" fs' = (Return tt, loaded) /\
    domain_blocker.get_blocked_domains loaded =
      self ∪ domain_blocker.DEFAULT_BLOCKED_DOMAINS /\
    ("blocklist.json"%string <> ""%string ->
     domain_blocker.init (Some "blocklist.json"%string) fs' = Return loaded).
Proof.
  intros fs self.
  apply (proj1 save_then_load_is_additive self "blocklist.json"%string fs).
  simpl. apply not_elem_of_empty.
Defined.

Lemma existsb_elements (p : string -> bool) (s : gset string) :
  existsb p (elements s) = true <-> exists x, x ∈ s /\ p x = true.
Proof.
  rewrite existsb_exists. split; intros (x & Hx & Hp); exists x; split; trivial.
  - apply elem_of_elements. now apply list_elem_of_In.
  - apply list_elem_of_In. now apply elem_of_elements.
Qed.

(** When the URL parses, [is_domain_blocked] returns the substring test
    on the lowercased netloc with "www." stripped afterwards. *)
Lemma is_domain_blocked_parsed (self : gset string) (url : string) parsed :
  urllib_parse.urlparse url = Return parsed ->
  domain_blocker.is_domain_blocked self url =
    Return (existsb
              (fun blocked =>
                 Str.contains
                   (domain_blocker.strip_www (Str.lower (urllib_parse.netloc parsed)))
                   blocked)
              (elements self)).
Proof.
  intros Hparse. unfold domain_blocker.is_domain_blocked.
  now rewrite Hparse.
Qed.

(** When the parser rejects the URL, the error is a DomainBlockerError. *)
Lemma is_domain_blocked_unparsed (self : gset string) (url : string) e :
  urllib_parse.urlparse url = Raise e ->
  domain_blocker.is_domain_blocked self url =
    Raise (mk_exn DomainBlockerError ("Failed to parse URL: " +:+ exn_msg e)).
Proof.
  intros Hparse. unfold domain_blocker.is_domain_blocked.
  rewrite Hparse. cbn [Pure.bind Pure.try_except].
  now rewrite first_match_Exception.
Qed.

(** C5, as the specification words it, fails: with the entry
    "www.example.org" added to the default blocklist, the host of
    "http://WWW.example.org", stripped of a literal "www." and then
    lowercased, is "www.example.org" and contains that entry, yet
    [is_domain_blocked] answers False. *)
Lemma is_domain_blocked_strip_then_lower_counterexample :
  ~ (forall (self : gset string) (url : string) parsed,
       urllib_parse.urlparse url = Return parsed ->
       urllib_parse.netloc parsed <> ""%string ->
       (domain_blocker.is_domain_blocked self url = Return true <->
        exists blocked,
          blocked ∈ self /\
          Str.contains
            (Spec.stripped_lowercased_host (urllib_parse.netloc parsed))
            blocked = true)).
Proof.
  intros Hclaim.
  pose (self := domain_blocker.add_blocked_domain
                  domain_blocker.DEFAULT_BLOCKED_DOMAINS "www.example.org").
  specialize (Hclaim self "http://WWW.example.org"%string
                (urllib_parse.mk_ParseResult "http" "WWW.example.org" "" "" "" "")
                eq_refl).
  destruct Hclaim as [_ Hblocked]; [discriminate |].
  assert (Hcode : domain_blocker.is_domain_blocked self "http://WWW.example.org"
                  = Return false) by (vm_compute; reflexivity).
  rewrite Hcode in Hblocked.
  enough (Return false = Return true :> result bool) by discriminate.
  apply Hblocked. exists "www.example.org"%string. split.
  - unfold self, domain_blocker.add_blocked_domain.
    apply elem_of_union_l, elem_of_singleton. reflexivity.
  - reflexivity.
Qed.

(** C5, amended.  For every URL that the parser accepts,
    [is_domain_blocked] lowercases the netloc, then strips one leading
    "www." from the lowercased text, and returns True exactly when some
    entry of the blocklist is a substring of the result.  With the
    default blocklist, "https://www.facebook.com/x" and
    "http://facebook.com" are blocked and "https://example.com" is not. *)
Theorem is_domain_blocked_lower_then_strip :
  (forall (self : gset string) (url : string) parsed,
     urllib_parse.urlparse url = Return parsed ->
     let host := domain_blocker.strip_www (Str.lower (urllib_parse.netloc parsed)) in
     exists b : bool,
       domain_blocker.is_domain_blocked self url = Return b /\
       (b = true <->
        exists blocked, blocked ∈ self /\ Str.contains host blocked = true)) /\
  domain_blocker.is_domain_blocked
    domain_blocker.DEFAULT_BLOCKED_DOMAINS "https://www.facebook.com/x" = Return true /\
  domain_blocker.is_domain_blocked
    domain_blocker.DEFAULT_BLOCKED_DOMAINS "http://facebook.com" = Return true /\
  domain_blocker.is_domain_blocked
    domain_blocker.DEFAULT_BLOCKED_DOMAINS "https://example.com" = Return false.
Proof.
  split; [| repeat split; vm_compute; reflexivity].
  intros self url parsed Hparse host.
  eexists. split; [apply (is_domain_blocked_parsed _ _ _ Hparse) |].
  apply existsb_elements.
Qed.

Lemma is_domain_blocked_lower_then_strip_witness :
  let self := domain_blocker.add_blocked_domain
                domain_blocker.DEFAULT_BLOCKED_DOMAINS "www.example.org" in
  exists b : bool,
    domain_blocker.is_domain_blocked self "http://WWW.example.org" = Return b /\
    (b = true <->
     exists blocked, blocked ∈ self /\ Str.contains "example.org" blocked = true).
Proof.
  intros self.
  exact (proj1 is_domain_blocked_lower_then_strip self "http://WWW.example.org"%string
           (urllib_parse.mk_ParseResult "http" "WWW.example.org" "" "" "" "")
           eq_refl).
Defined.

(** C6 does not hold of the code.  From "not-a-valid-url" and from
    "http://" no host can be extracted (the netloc is empty), and
    [is_domain_blocked] returns False where the specification, and the
    package's own test test_invalid_url_format, expect a
    DomainBlockerError. *)
Theorem is_domain_blocked_without_host_returns :
  urllib_parse.urlparse "not-a-valid-url" =
    Return (urllib_parse.mk_ParseResult "" "" "not-a-valid-url" "" "" "") /\
  domain_blocker.is_domain_blocked
    domain_blocker.DEFAULT_BLOCKED_DOMAINS "not-a-valid-url" = Return false /\
  domain_blocker.is_domain_blocked
    domain_blocker.DEFAULT_BLOCKED_DOMAINS "http://" = Return false.
Proof. repeat split; vm_compute; reflexivity. Qed.

(** The error of C6 arises only when the parser itself rejects the
    text; an empty netloc is not an error at any blocklist. *)
Lemma is_domain_blocked_raises_iff (self : gset string) (url : string) :
  (exists e, domain_blocker.is_domain_blocked self url = Raise e) <->
  (exists e, urllib_parse.urlparse url = Raise e).
Proof.
  destruct (urllib_parse.urlparse url) as [parsed | e] eqn:Hparse.
  - rewrite (is_domain_blocked_parsed _ _ _ Hparse).
    split; intros [e He]; discriminate He.
  - rewrite (is_domain_blocked_unparsed _ _ _ Hparse).
    split; intros _; eauto.
Qed.


(** *** The archive lookup *)

(** [get_latest_archive] makes one GET request, for the search URL. *)
Lemma get_latest_archive_trace env url timeout t :
  snd (archive_service.get_latest_archive url timeout env t) =
    t ++ [Get (archive_service.construct_search_url url) timeout].
Proof.
  unfold archive_service.get_latest_archive, try_except, bind, http_get.
  destruct (requests_get env _ timeout) as [response | e].
  - repeat case_handler; reflexivity.
  - cbn [first_match]. case_handler; reflexivity.
Qed.

(** The outcome of [get_latest_archive] on a response with status 200. *)
Lemma get_latest_archive_200 env url timeout t response :
  requests_get env (archive_service.construct_search_url url) timeout = Return response ->
  requests.status_code response = 200 ->
  fst (archive_service.get_latest_archive url timeout env t) =
    if Str.contains (requests.url response) "archive.is/" &&
       negb (String.eqb (requests.url response)
                        (archive_service.construct_search_url url))
    then Return (requests.url response)
    else Raise archive_service.not_found.
Proof.
  intros Hget H200.
  unfold archive_service.get_latest_archive, try_except, bind, http_get.
  rewrite Hget, H200. cbn [Z.eqb Pos.eqb].
  case_handler; reflexivity.
Qed.

(** What the code does with a response of status 200: it returns the
    final location exactly when that location differs from the search
    URL and contains the text "archive.is/" (anywhere in it); in every
    other case, and so whenever the final location equals the search
    URL, it raises ArchiveNotFoundError. *)
Lemma get_latest_archive_on_200 :
  forall env url timeout t response,
    requests_get env (archive_service.construct_search_url url) timeout
      = Return response ->
    requests.status_code response = 200 ->
    let search_url := archive_service.construct_search_url url in
    let location := requests.url response in
    let outcome := fst (archive_service.get_latest_archive url timeout env t) in
    (outcome = Return location <->
     location <> search_url /\ Str.contains location "archive.is/" = true) /\
    (outcome <> Return location -> outcome = Raise archive_service.not_found) /\
    (location = search_url -> outcome = Raise archive_service.not_found).
Proof.
  intros env url timeout t response Hget H200 search_url location outcome.
  subst outcome. rewrite (get_latest_archive_200 _ _ _ _ _ Hget H200).
  fold search_url location.
  destruct (Str.contains location "archive.is/") eqn:Hsub;
    destruct (String.eqb location search_url) eqn:Heq; cbn [andb negb].
  all: first [apply String.eqb_eq in Heq | apply String.eqb_neq in Heq].
  all: repeat split; intros; intuition (discriminate || congruence).
Qed.

Lemma get_latest_archive_on_200_witness :
  let env := env_of (Raise (mk_exn Timeout ""))
               (Return (mk_Response 200 "https://archive.is/abc123")) in
  let outcome :=
    fst (archive_service.get_latest_archive "https://example.com" 10 env []) in
  (outcome = Return "https://archive.is/abc123"%string <->
   "https://archive.is/abc123"%string
     <> archive_service.construct_search_url "https://example.com" /\
   Str.contains "https://archive.is/abc123" "archive.is/" = true) /\
  (outcome <> Return "https://archive.is/abc123"%string ->
   outcome = Raise archive_service.not_found) /\
  ("https://archive.is/abc123"%string
     = archive_service.construct_search_url "https://example.com" ->
   outcome = Raise archive_service.not_found).
Proof.
  intros env outcome.
  exact (get_latest_archive_on_200 env "https://example.com"%string 10 []
           (mk_Response 200 "https://archive.is/abc123") eq_refl eq_refl).
Defined.

(** C1 does not hold of the code.  For "https://example.com", when the
    search request is answered with status 200 at the final location
    "https://example.com/archive.is/", [get_latest_archive] returns that
    location as the latest archive.  The location differs from the
    search URL, but it does not lie on the archive service's host: its
    host is example.com.  The code looks for the text "archive.is/"
    anywhere in the final location. *)
Theorem get_latest_archive_off_host :
  forall head_answer : result Response,
    let url := "https://example.com"%string in
    let location := "https://example.com/archive.is/"%string in
    let env := env_of head_answer (Return (mk_Response 200 location)) in
    archive_service.get_latest_archive url 10 env [] =
      (Return location, [Get (archive_service.construct_search_url url) 10]) /\
    location <> archive_service.construct_search_url url /\
    (exists parsed, urllib_parse.urlparse location = Return parsed /\
                    urllib_parse.netloc parsed = "example.com"%string) /\
    Spec.on_archive_host location = false.
Proof.
  intros head_answer url location env.
  split; [reflexivity |]. split; [discriminate |].
  split; [eexists; split; reflexivity | reflexivity].
Qed.

(** The validation pipeline, once the checks of format, scheme and
    blocklist have passed, is the reachability check: its final URL is
    returned and its error is raised as it is. *)
Lemma validate_url_with_reachability_passed env url timeout blocker t :
  validators.is_well_formed_url url = Return true ->
  validators.is_valid_scheme url = Return true ->
  (forall self, blocker = Some self ->
                domain_blocker.is_domain_blocked self url = Return false) ->
  validators.validate_url_with_reachability url timeout blocker env t =
    match validators.check_url_reachability url timeout env t with
    | (Return (final_url, _), t') => (Return final_url, t')
    | (Raise e, t') => (Raise e, t')
    end.
Proof.
  intros Hformat Hscheme Hblocker.
  unfold validators.validate_url_with_reachability, bind, lift.
  rewrite Hformat, Hscheme. cbn [negb].
  destruct blocker as [self |].
  - rewrite (Hblocker self eq_refl).
    destruct (validators.check_url_reachability url timeout env t) as [[[u r] | e] t'];
      reflexivity.
  - unfold ret at 1.
    destruct (validators.check_url_reachability url timeout env t) as [[[u r] | e] t'];
      reflexivity.
Qed.

Lemma validate_url_with_reachability_raises env url timeout t blocker e :
  validators.is_well_formed_url url = Return true ->
  validators.is_valid_scheme url = Return true ->
  (forall self, blocker = Some self ->
                domain_blocker.is_domain_blocked self url = Return false) ->
  fst (validators.check_url_reachability url timeout env t) = Raise e ->
  fst (validators.validate_url_with_reachability url timeout blocker env t)
    = Raise e.
Proof.
  intros Hformat Hscheme Hblocker Hprobe.
  rewrite (validate_url_with_reachability_passed _ _ _ _ _ Hformat Hscheme Hblocker).
  destruct (validators.check_url_reachability url timeout env t)
    as [[[u r] | e'] t']; [discriminate Hprobe |].
  cbn [fst] in *. congruence.
Qed.

(** [get_or_create_archive] makes the one request of the lookup and no
    other.  When the lookup raises ArchiveNotFoundError it raises
    ArchiveCreationError ("not yet implemented") instead; every other
    error of the lookup is raised as it is, and an archive that was
    found is returned as it is.  The validation pipeline raises the
    error of the reachability check unchanged. *)
Lemma get_or_create_archive_remaps_not_found_only :
  forall env url timeout t,
    let lookup := archive_service.get_latest_archive url timeout env t in
    let outcome := archive_service.get_or_create_archive url timeout env t in
    snd outcome = t ++ [Get (archive_service.construct_search_url url) timeout] /\
    (forall e, fst lookup = Raise e ->
       issubclass (exn_cls e) ArchiveNotFoundError = true ->
       fst outcome = Raise archive_service.creation_not_implemented) /\
    (forall e, fst lookup = Raise e ->
       issubclass (exn_cls e) ArchiveNotFoundError = false ->
       fst outcome = Raise e) /\
    (forall archive, fst lookup = Return archive -> fst outcome = Return archive) /\
    (forall blocker e,
       validators.is_well_formed_url url = Return true ->
       validators.is_valid_scheme url = Return true ->
       (forall self, blocker = Some self ->
                     domain_blocker.is_domain_blocked self url = Return false) ->
       fst (validators.check_url_reachability url timeout env t) = Raise e ->
       fst (validators.validate_url_with_reachability url timeout blocker env t)
         = Raise e).
Proof.
  intros env url timeout t lookup outcome.
  pose proof (get_latest_archive_trace env url timeout t) as Htrace.
  fold lookup in Htrace.
  assert (Houtcome :
            outcome =
              match lookup with
              | (Return archive, t') => (Return archive, t')
              | (Raise e, t') =>
                  if issubclass (exn_cls e) ArchiveNotFoundError
                  then (Raise archive_service.creation_not_implemented, t')
                  else (Raise e, t')
              end).
  { subst outcome. unfold archive_service.get_or_create_archive, try_except.
    fold lookup. destruct lookup as [[archive | e] t']; [reflexivity |].
    cbn [first_match isinstance existsb]. rewrite orb_false_r.
    destruct (issubclass (exn_cls e) ArchiveNotFoundError); reflexivity. }
  rewrite Houtcome. clear Houtcome.
  destruct lookup as [[archive | e] t']; cbn [fst snd] in *.
  - split; [exact Htrace |]. split; [discriminate |]. split; [discriminate |].
    split; [trivial |]. apply validate_url_with_reachability_raises.
  - split; [now destruct (issubclass (exn_cls e) ArchiveNotFoundError) |].
    split; [intros e0 [= <-] ->; reflexivity |].
    split; [intros e0 [= <-] ->; reflexivity |].
    split; [discriminate |]. apply validate_url_with_reachability_raises.
Qed.

Lemma get_or_create_archive_remaps_not_found_only_witness :
  let env := env_of (Return (mk_Response 200 "https://example.com"))
               (Return (mk_Response 404 "https://archive.is/submit/")) in
  fst (archive_service.get_or_create_archive "https://example.com" 10 env [])
    = Raise archive_service.creation_not_implemented.
Proof.
  intros env.
  destruct (get_or_create_archive_remaps_not_found_only
              env "https://example.com"%string 10 [])
    as (_ & Hremap & _).
  apply (Hremap archive_service.not_found); reflexivity.
Defined.

(** C3 does not hold of the code: the remap of [get_or_create_archive]
    is not the only place where one kind of error becomes another.  For
    "not_a_url" the validation pipeline raises the URLValidationError of
    validators.py with "Invalid URL format", without any request.  That
    class is not the URLValidationError of exceptions.py, which the
    handlers of [cli.main] and [archive.archive_url] name, so the error
    falls through to the handler for [Exception]: [main] prints the
    lines of an unexpected error and returns 1, not 2, and
    [archive_url] reports "An unexpected error occurred: Invalid URL
    format". *)
Theorem main_downgrades_validation_error :
  forall env : Env,
    let e := validators.URLValidationError "Invalid URL format" in
    validators.validate_url_with_reachability "not_a_url" default_timeout None env [] =
      (Raise e, []) /\
    isinstance e [Exc_URLValidationError] = false /\
    cli.main (cli.mk_Namespace "not_a_url" false) env [] =
      (Return 1,
       [ Stderr "Error: An unexpected error occurred - Invalid URL format";
         Stderr "This is likely a bug. Please report it to the developers." ]) /\
    archive.archive_url "not_a_url" false env [] =
      (Return (false, "An unexpected error occurred: Invalid URL format"%string), []).
Proof.
  intros env e. repeat split; reflexivity.
Qed.

(** *** The validators *)

Lemma is_well_formed_url_total (url : string) :
  exists b, validators.is_well_formed_url url = Return b.
Proof. apply try_except_Exception_total. Qed.

Lemma is_valid_scheme_total (url : string) :
  exists b, validators.is_valid_scheme url = Return b.
Proof. apply try_except_Exception_total. Qed.

(** C4, read of the validator that returns the URL itself
    ([validate_url]), fails: "not_a_url" fails the format check, and the
    message is that of the scheme check. *)
Lemma validate_url_format_first_counterexample :
  ~ (forall url,
       validators.is_well_formed_url url = Return false ->
       validators.validate_url url =
         Raise (validators.URLValidationError "Invalid URL format")).
Proof.
  intros Hclaim.
  specialize (Hclaim "not_a_url"%string eq_refl).
  vm_compute in Hclaim. discriminate Hclaim.
Qed.

(** C4, amended.  The validator of the pipeline,
    [validate_url_with_reachability], checks the format before the
    scheme and before any request: a string that fails the format check
    gets "Invalid URL format", also when its scheme is not http or
    https, and a well-formed string with another scheme gets "URL must
    start with http:// or https://" ("ftp://x.com" is such a string).
    The validator [validate_url] rejects the empty string with "URL
    cannot be empty", then checks the scheme, with the same message as
    the pipeline, and only then the format, with the message "URL is not
    well-formed"; what passes is returned unchanged. *)
Theorem validators_order_of_checks :
  (forall env url timeout blocker t,
     (validators.is_well_formed_url url = Return false ->
      validators.validate_url_with_reachability url timeout blocker env t =
        (Raise (validators.URLValidationError "Invalid URL format"), t)) /\
     (validators.is_well_formed_url url = Return true ->
      validators.is_valid_scheme url = Return false ->
      validators.validate_url_with_reachability url timeout blocker env t =
        (Raise (validators.URLValidationError
                  "URL must start with http:// or https://"), t))) /\
  (forall url,
     (url = ""%string ->
      validators.validate_url url =
        Raise (validators.URLValidationError "URL cannot be empty")) /\
     (url <> ""%string ->
      validators.is_valid_scheme url = Return false ->
      validators.validate_url url =
        Raise (validators.URLValidationError
                 "URL must start with http:// or https://")) /\
     (validators.is_valid_scheme url = Return true ->
      validators.is_well_formed_url url = Return false ->
      validators.validate_url url =
        Raise (validators.URLValidationError "URL is not well-formed")) /\
     (validators.is_valid_scheme url = Return true ->
      validators.is_well_formed_url url = Return true ->
      validators.validate_url url = Return url)) /\
  validators.is_well_formed_url "ftp://x.com" = Return true /\
  validators.is_valid_scheme "ftp://x.com" = Return false /\
  validators.is_well_formed_url "not_a_url" = Return false /\
  validators.is_valid_scheme "not_a_url" = Return false.
Proof.
  split; [| split; [| repeat split; vm_compute; reflexivity]].
  - intros env url timeout blocker t.
    unfold validators.validate_url_with_reachability, bind, lift, raise.
    split.
    + intros ->. reflexivity.
    + intros -> ->. reflexivity.
  - intros url.
    assert (Hnonempty : validators.is_valid_scheme url = Return true ->
                        Str.is_empty url = false).
    { destruct url; [vm_compute; discriminate | reflexivity]. }
    unfold validators.validate_url.
    split; [intros ->; reflexivity |].
    split; [intros Hne ->; destruct url; [contradiction | reflexivity] |].
    split.
    + intros Hscheme ->. rewrite (Hnonempty Hscheme), Hscheme. reflexivity.
    + intros Hscheme ->. rewrite (Hnonempty Hscheme), Hscheme. reflexivity.
Qed.

Lemma validators_order_of_checks_witness :
  let env := env_of (Return (mk_Response 200 "https://example.com"))
               (Return (mk_Response 200 "https://archive.is/abc123")) in
  validators.validate_url_with_reachability "not_a_url" 10 None env [] =
    (Raise (validators.URLValidationError "Invalid URL format"), []) /\
  validators.validate_url_with_reachability "ftp://x.com" 10 None env [] =
    (Raise (validators.URLValidationError
              "URL must start with http:// or https://"), []) /\
  validators.validate_url "not_a_url" =
    Raise (validators.URLValidationError
             "URL must start with http:// or https://") /\
  validators.validate_url "http://" =
    Raise (validators.URLValidationError "URL is not well-formed").
Proof.
  intros env.
  destruct validators_order_of_checks as (Hpipeline & Hplain & _).
  split; [apply (Hpipeline env "not_a_url"%string 10 None []); reflexivity |].
  split; [apply (Hpipeline env "ftp://x.com"%string 10 None []); reflexivity |].
  split.
  - apply (Hplain "not_a_url"%string); [discriminate | reflexivity].
  - apply (Hplain "http://"%string); reflexivity.
Defined.

(** *** The compositions *)

(** The pipeline returns the final URL of the probe, not its input. *)
Lemma validate_url_with_reachability_final_url env url timeout blocker t response :
  validators.is_well_formed_url url = Return true ->
  validators.is_valid_scheme url = Return true ->
  (forall self, blocker = Some self ->
                domain_blocker.is_domain_blocked self url = Return false) ->
  requests_head env url timeout = Return response ->
  requests.status_code response = 200 ->
  validators.validate_url_with_reachability url timeout blocker env t =
    (Return (requests.url response), t ++ [Head url timeout]).
Proof.
  intros Hformat Hscheme Hblocker Hprobe H200.
  rewrite (validate_url_with_reachability_passed _ _ _ _ _ Hformat Hscheme Hblocker).
  rewrite (check_url_reachability_response _ _ _ _ _ Hprobe), H200.
  reflexivity.
Qed.

Section Appends.

Context {A B : Type}.

Lemma appends_ret (a : A) : appends (ret a).
Proof. intros env t. exists []. cbn. now rewrite app_nil_r. Qed.

Lemma appends_raise (e : exn) : appends (@raise A e).
Proof. intros env t. exists []. cbn. now rewrite app_nil_r. Qed.

Lemma appends_lift (r : result A) : appends (lift r).
Proof. intros env t. exists []. cbn. now rewrite app_nil_r. Qed.

Lemma appends_bind (m : M A) (k : A -> M B) :
  appends m -> (forall a, appends (k a)) -> appends (bind m k).
Proof.
  intros Hm Hk env t. unfold bind.
  destruct (Hm env t) as [s1 Hs1].
  destruct (m env t) as [[a | e] t1]; cbn [snd] in *; subst t1.
  - destruct (Hk a env (t ++ s1)) as [s2 Hs2].
    exists (s1 ++ s2). now rewrite Hs2, app_assoc.
  - now exists s1.
Qed.

Lemma appends_first_match (cs : list (clause (M A))) (e : exn) :
  Forall (fun c => forall e', appends (snd c e')) cs ->
  match first_match cs e with
  | Some handler => appends handler
  | None => True
  end.
Proof.
  induction 1 as [| [classes h] cs Hh _ IH]; cbn [first_match]; [trivial |].
  destruct (isinstance e classes); [apply Hh | exact IH].
Qed.

Lemma appends_try_except (body : M A) (cs : list (clause (M A))) :
  appends body ->
  Forall (fun c => forall e, appends (snd c e)) cs ->
  appends (try_except body cs).
Proof.
  intros Hbody Hcs env t. unfold try_except.
  destruct (Hbody env t) as [s1 Hs1].
  destruct (body env t) as [[a | e] t1]; cbn [snd] in *; subst t1.
  - now exists s1.
  - pose proof (appends_first_match cs e Hcs) as Hh.
    destruct (first_match cs e) as [handler |].
    + destruct (Hh env (t ++ s1)) as [s2 Hs2].
      exists (s1 ++ s2). now rewrite Hs2, app_assoc.
    + now exists s1.
Qed.

End Appends.

Lemma appends_browser_open target : appends (browser_open target).
Proof. intros env t. now exists [BrowserOpen target]. Qed.

Lemma appends_print_stderr line : appends (print_stderr line).
Proof. intros env t. now exists [Stderr line]. Qed.

Create HintDb appends.
#[local] Hint Resolve appends_ret appends_raise appends_lift appends_browser_open
  appends_print_stderr : appends.

Ltac appends_step :=
  first
    [ apply appends_bind; [| intros ?]
    | apply appends_try_except; [| repeat constructor; intros ?; cbn [snd]]
    | solve [auto with appends]
    | case_handler
    | match goal with |- appends (let '(_, _) := ?p in _) => destruct p end ].

Lemma appends_open_url_in_browser url :
  appends (browser_handler.open_url_in_browser url).
Proof. unfold browser_handler.open_url_in_browser. repeat appends_step. Qed.

(** The lookup request is the next event, whatever follows it. *)
Lemma lookup_then {A : Type} (k : string -> M A) (cs : list (clause (M A)))
    target env t :
  (forall a, appends (k a)) ->
  Forall (fun c => forall e, appends (snd c e)) cs ->
  exists rest,
    snd (try_except
           (bind (archive_service.get_latest_archive target default_timeout) k)
           cs env t)
      = t ++ Get (archive_service.construct_search_url target) default_timeout :: rest.
Proof.
  intros Hk Hcs. unfold try_except, bind.
  pose proof (get_latest_archive_trace env target default_timeout t) as Hget.
  destruct (archive_service.get_latest_archive target default_timeout env t)
    as [[archive | e] t1]; cbn [snd] in Hget; subst t1.
  - destruct (Hk archive env (t ++ [Get (archive_service.construct_search_url target)
                                        default_timeout])) as [s1 Hs1].
    destruct (k archive env _) as [[a | e] t2]; cbn [snd] in Hs1; subst t2.
    + exists s1. cbn [snd]. now rewrite <- app_assoc.
    + pose proof (appends_first_match cs e Hcs) as Hh.
      destruct (first_match cs e) as [handler |].
      * destruct (Hh env ((t ++ [Get (archive_service.construct_search_url target)
                                     default_timeout]) ++ s1)) as [s2 Hs2].
        exists (s1 ++ s2). rewrite Hs2. now rewrite <- !app_assoc.
      * exists s1. cbn [snd]. now rewrite <- app_assoc.
  - pose proof (appends_first_match cs e Hcs) as Hh.
    destruct (first_match cs e) as [handler |].
    + destruct (Hh env (t ++ [Get (archive_service.construct_search_url target)
                                  default_timeout])) as [s2 Hs2].
      exists s2. rewrite Hs2. now rewrite <- app_assoc.
    + exists []. reflexivity.
Qed.

(** [cli.main] looks up the URL that the pipeline returned. *)
Lemma main_looks_up_validated_url env args t validated_url t1 :
  validators.validate_url_with_reachability (cli.url args) default_timeout None env t
    = (Return validated_url, t1) ->
  exists rest,
    snd (cli.main args env t) =
      t1 ++ Get (archive_service.construct_search_url validated_url) default_timeout
         :: rest.
Proof.
  intros Hvalid.
  unfold cli.main.
  match goal with
  | |- context [try_except (bind ?m ?k) ?cs] =>
      destruct (lookup_then
                  (fun archive_url =>
                     bind (browser_handler.open_url_in_browser archive_url)
                       (fun r => let '(success, message) := r in
                                 if negb success then ret 1 else ret 0))
                  cs validated_url env t1) as [rest Hrest]
  end.
  - intros a. repeat appends_step.
  - repeat constructor; intros e; cbn [snd]; repeat appends_step.
  - exists rest. rewrite <- Hrest.
    unfold try_except. unfold bind at 1. rewrite Hvalid. reflexivity.
Qed.

(** [archive.archive_url] looks up the URL it was given, whatever final
    URL the pipeline returned. *)
Lemma archive_url_looks_up_its_argument env url quiet t final_url t1 :
  validators.validate_url_with_reachability url default_timeout None env t
    = (Return final_url, t1) ->
  exists rest,
    snd (archive.archive_url url quiet env t) =
      t1 ++ Get (archive_service.construct_search_url url) default_timeout :: rest.
Proof.
  intros Hvalid.
  unfold archive.archive_url.
  match goal with
  | |- context [try_except (bind ?m ?k) ?cs] =>
      destruct (lookup_then
                  (fun archived_url =>
                     bind (browser_handler.open_url_in_browser archived_url)
                       (fun r => let '(success, message) := r in
                                 if (success : bool) then
                                   ret (true, "Successfully opened archived version: "
                                                +:+ archived_url)
                                 else
                                   raise (mk_exn Exc_BrowserError
                                            ("Failed to open browser: " +:+ message))))
                  cs url env t1) as [rest Hrest]
  end.
  - intros a. repeat appends_step.
  - repeat constructor; intros e; cbn [snd]; repeat appends_step.
  - exists rest. rewrite <- Hrest.
    unfold try_except. unfold bind at 1. rewrite Hvalid. reflexivity.
Qed.

(** C2 does not hold of [archive.archive_url].  The probe of
    "http://example.com" is redirected to "https://www.example.com/",
    and the pipeline returns that final URL; [cli.main] looks the final
    URL up, but [archive.archive_url] drops it and looks up the URL it
    was given. *)
Theorem archive_url_drops_final_url :
  let env := env_of (Return (mk_Response 200 "https://www.example.com/"))
               (Return (mk_Response 200 "https://archive.is/abc123")) in
  validators.validate_url_with_reachability "http://example.com" default_timeout None env []
    = (Return "https://www.example.com/"%string, [Head "http://example.com" 10]) /\
  snd (cli.main (cli.mk_Namespace "http://example.com" false) env [])
    = [ Head "http://example.com" 10;
        Get "https://archive.is/submit/?url=https%3A%2F%2Fwww.example.com%2F" 10;
        BrowserOpen "https://archive.is/abc123" ] /\
  snd (archive.archive_url "http://example.com" false env [])
    = [ Head "http://example.com" 10;
        Get "https://archive.is/submit/?url=http%3A%2F%2Fexample.com" 10;
        BrowserOpen "https://archive.is/abc123" ].
Proof. repeat split; vm_compute; reflexivity. Qed.

(** The handlers of [archive.archive_url] catch every exception and
    answer with False and a message. *)
Lemma archive_url_handlers_total (e : exn) :
  exists message,
    first_match
      [ ([Exc_URLValidationError; Exc_URLReachabilityError],
         fun e => ret (false, exn_msg e));
        ([ArchiveServiceError], fun e => ret (false, exn_msg e));
        ([Exc_BrowserError], fun e => ret (false, exn_msg e));
        ([Exception],
         fun e => ret (false, "An unexpected error occurred: " +:+ exn_msg e)) ] e
    = Some (ret (false, message)).
Proof.
  cbn [first_match].
  destruct (isinstance e [Exc_URLValidationError; Exc_URLReachabilityError]); [eauto |].
  destruct (isinstance e [ArchiveServiceError]); [eauto |].
  destruct (isinstance e [Exc_BrowserError]); [eauto |].
  unfold isinstance. cbn [existsb]. rewrite issubclass_Exception. cbn [orb]. eauto.
Qed.

(** C10.  [archive.archive_url] always returns a pair of a boolean and a
    message, whatever the answers of the outside: no exception reaches
    its caller.  The boolean is True only when validation, lookup and
    browser launch all succeeded; every failure gives False. *)
Theorem archive_url_total :
  forall env url quiet t,
    exists success message t',
      archive.archive_url url quiet env t = (Return (success, message), t') /\
      (success = true <->
       exists final_url t1 archived_url t2 note t3,
         validators.validate_url_with_reachability url default_timeout None env t
           = (Return final_url, t1) /\
         archive_service.get_latest_archive url default_timeout env t1
           = (Return archived_url, t2) /\
         browser_handler.open_url_in_browser archived_url env t2
           = (Return (true, note), t3)).
Proof.
  intros env url quiet t.
  unfold archive.archive_url, try_except. unfold bind at 1.
  destruct (validators.validate_url_with_reachability url default_timeout None env t)
    as [[final_url | e1] t1] eqn:Hvalid.
  2:{ destruct (archive_url_handlers_total e1) as [message ->].
      exists false, message, t1. split; [reflexivity |].
      split; [discriminate |]. intros (? & ? & ? & ? & ? & ? & [=] & _). }
  unfold bind at 1.
  destruct (archive_service.get_latest_archive url default_timeout env t1)
    as [[archived_url | e2] t2] eqn:Hlookup.
  2:{ destruct (archive_url_handlers_total e2) as [message ->].
      exists false, message, t2. split; [reflexivity |].
      split; [discriminate |].
      intros (? & ? & ? & ? & ? & ? & [= <- <-] & Hl & _).
      rewrite Hlookup in Hl. discriminate Hl. }
  unfold bind at 1.
  destruct (browser_handler.open_url_in_browser archived_url env t2)
    as [[[success note] | e3] t3] eqn:Hopen.
  2:{ destruct (archive_url_handlers_total e3) as [message ->].
      exists false, message, t3. split; [reflexivity |].
      split; [discriminate |].
      intros (? & ? & ? & ? & ? & ? & [= <- <-] & Hl & Ho).
      rewrite Hlookup in Hl. injection Hl as <- <-.
      rewrite Hopen in Ho. discriminate Ho. }
  destruct success.
  - eexists true, _, t3. split; [reflexivity |].
    split; [| reflexivity]. intros _.
    exists final_url, t1, archived_url, t2, note, t3. auto.
  - unfold raise.
    match goal with
    | |- context [first_match ?cs ?e] =>
        destruct (archive_url_handlers_total e) as [message ->]
    end.
    exists false, message, t3. split; [reflexivity |].
    split; [discriminate |].
    intros (? & ? & ? & ? & ? & ? & [= <- <-] & Hl & Ho).
    rewrite Hlookup in Hl. injection Hl as <- <-.
    rewrite Hopen in Ho. discriminate Ho.
Qed.

(* ===================================================================== *)
(** ** Further properties of the package *)
(* ===================================================================== *)

#[local] Set Warnings "-clear-no-such-hyp".

(** *** Transport failures of the two requests *)

(** X1.  When the HEAD request raises, [check_url_reachability] makes no
    second request and turns the exception into a URLReachabilityError
    according to the first handler that matches: a Timeout gives
    "Request timed out", TooManyRedirects "Too many redirects", an
    SSLError "SSL verification failed" (although it is a
    RequestException too), any other RequestException "Request failed: "
    with its text; an exception that is no RequestException is raised as
    it is. *)
Theorem check_url_reachability_transport :
  forall env url timeout t e,
    requests_head env url timeout = Raise e ->
    let cls := exn_cls e in
    let outcome := validators.check_url_reachability url timeout env t in
    snd outcome = t ++ [Head url timeout] /\
    (issubclass cls Timeout = true ->
     fst outcome = Raise (validators.URLReachabilityError "Request timed out")) /\
    (issubclass cls Timeout = false -> issubclass cls TooManyRedirects = true ->
     fst outcome = Raise (validators.URLReachabilityError "Too many redirects")) /\
    (issubclass cls Timeout = false -> issubclass cls TooManyRedirects = false ->
     issubclass cls SSLError = true ->
     fst outcome = Raise (validators.URLReachabilityError "SSL verification failed")) /\
    (issubclass cls Timeout = false -> issubclass cls TooManyRedirects = false ->
     issubclass cls SSLError = false -> issubclass cls RequestException = true ->
     fst outcome =
       Raise (validators.URLReachabilityError ("Request failed: " +:+ exn_msg e))) /\
    (issubclass cls RequestException = false -> fst outcome = Raise e).
Proof.
  intros env url timeout t e Hprobe cls outcome. subst outcome.
  unfold validators.check_url_reachability, try_except, bind, http_head.
  rewrite Hprobe. cbn [first_match isinstance existsb]. rewrite !orb_false_r.
  fold cls.
  assert (Hsub : issubclass cls RequestException = false ->
                 issubclass cls Timeout = false /\
                 issubclass cls TooManyRedirects = false /\
                 issubclass cls SSLError = false).
  { destruct cls; cbv; intros; try discriminate; auto. }
  destruct (issubclass cls Timeout) eqn:H1.
  { repeat split; intros; try discriminate; try reflexivity.
    destruct (Hsub H) as (? & _); discriminate. }
  destruct (issubclass cls TooManyRedirects) eqn:H2.
  { repeat split; intros; try discriminate; try reflexivity.
    destruct (Hsub H) as (_ & ? & _); discriminate. }
  destruct (issubclass cls SSLError) eqn:H3.
  { repeat split; intros; try discriminate; try reflexivity.
    destruct (Hsub H) as (_ & _ & ?); discriminate. }
  destruct (issubclass cls RequestException) eqn:H4;
    repeat split; intros; try discriminate; reflexivity.
Qed.

Lemma check_url_reachability_transport_witness :
  let env := env_of (Raise (mk_exn SSLError "certificate verify failed"))
               (Raise (mk_exn Timeout "")) in
  fst (validators.check_url_reachability "https://example.com" 10 env [])
    = Raise (validators.URLReachabilityError "SSL verification failed").
Proof.
  intros env.
  destruct (check_url_reachability_transport env "https://example.com"%string 10 []
              (mk_exn SSLError "certificate verify failed") eq_refl)
    as (_ & _ & _ & Hssl & _).
  apply Hssl; reflexivity.
Defined.

(** The outcome of [get_latest_archive] on any answer to its request. *)
Lemma get_latest_archive_answer env url timeout t :
  fst (archive_service.get_latest_archive url timeout env t) =
    match requests_get env (archive_service.construct_search_url url) timeout with
    | Return response =>
        let code := requests.status_code response in
        if code =? 200 then
          if Str.contains (requests.url response) "archive.is/" &&
             negb (String.eqb (requests.url response)
                              (archive_service.construct_search_url url))
          then Return (requests.url response)
          else Raise archive_service.not_found
        else if code =? 404 then Raise archive_service.not_found
        else if code >=? 500 then
          Raise (mk_exn ArchiveServiceUnavailableError
                   "Archive.is service is temporarily unavailable. Please try again later.")
        else
          Raise (mk_exn ArchiveServiceError
                   ("Received unexpected response from archive.is (status code: "
                    +:+ Str.of_Z code +:+ "). "
                    +:+ "Please try again or report this issue if it persists."))
    | Raise e =>
        if issubclass (exn_cls e) RequestException then
          Raise (mk_exn ArchiveServiceError
                   ("Failed to communicate with archive.is: " +:+ exn_msg e))
        else Raise e
    end.
Proof.
  unfold archive_service.get_latest_archive, try_except, bind, http_get.
  destruct (requests_get env _ timeout) as [response | e].
  - cbv zeta. repeat case_handler; reflexivity.
  - cbn [first_match isinstance existsb]. rewrite orb_false_r.
    case_handler; reflexivity.
Qed.

(** X2.  On a response other than 200, [get_latest_archive] raises
    ArchiveNotFoundError for 404, ArchiveServiceUnavailableError for
    every status from 500 on, and the plain ArchiveServiceError with the
    status in its text for the rest.  When the request itself raises a
    RequestException (a timeout, an SSL or connection error) it raises
    ArchiveServiceError "Failed to communicate with archive.is: " with
    the text of the exception; any other exception is raised as it is. *)
Theorem get_latest_archive_failures :
  forall env url timeout t,
    let outcome := fst (archive_service.get_latest_archive url timeout env t) in
    let answer := requests_get env (archive_service.construct_search_url url) timeout in
    (forall response, answer = Return response ->
       let code := requests.status_code response in
       (code = 404 -> outcome = Raise archive_service.not_found) /\
       (code >= 500 ->
        outcome =
          Raise (mk_exn ArchiveServiceUnavailableError
                   "Archive.is service is temporarily unavailable. Please try again later.")) /\
       (code <> 200 -> code <> 404 -> code < 500 ->
        outcome =
          Raise (mk_exn ArchiveServiceError
                   ("Received unexpected response from archive.is (status code: "
                    +:+ Str.of_Z code +:+ "). "
                    +:+ "Please try again or report this issue if it persists.")))) /\
    (forall e, answer = Raise e ->
       (issubclass (exn_cls e) RequestException = true ->
        outcome =
          Raise (mk_exn ArchiveServiceError
                   ("Failed to communicate with archive.is: " +:+ exn_msg e))) /\
       (issubclass (exn_cls e) RequestException = false -> outcome = Raise e)).
Proof.
  intros env url timeout t outcome answer. subst outcome.
  rewrite get_latest_archive_answer. fold answer.
  split.
  - intros response -> code. cbv zeta. fold code.
    split; [intros ->; reflexivity |]. split.
    + intros Hge.
      destruct (code =? 200) eqn:E200; [apply Z.eqb_eq in E200; lia |].
      destruct (code =? 404) eqn:E404; [apply Z.eqb_eq in E404; lia |].
      destruct (code >=? 500) eqn:E500; [reflexivity |].
      rewrite Z.geb_leb in E500. apply Z.leb_gt in E500. lia.
    + intros H200 H404 Hlt. apply Z.eqb_neq in H200, H404. rewrite H200, H404.
      destruct (code >=? 500) eqn:E500; [| reflexivity].
      rewrite Z.geb_leb in E500. apply Z.leb_le in E500. lia.
  - intros e ->. split; intros ->; reflexivity.
Qed.

Lemma get_latest_archive_failures_witness :
  let env := env_of (Return (mk_Response 200 "https://example.com"))
               (Raise (mk_exn Timeout "Read timed out.")) in
  fst (archive_service.get_latest_archive "https://example.com" 10 env []) =
    Raise (mk_exn ArchiveServiceError
             "Failed to communicate with archive.is: Read timed out.").
Proof.
  intros env.
  destruct (get_latest_archive_failures env "https://example.com"%string 10 [])
    as (_ & Hraise).
  destruct (Hraise (mk_exn Timeout "Read timed out.") eq_refl) as (Hreq & _).
  apply Hreq. reflexivity.
Defined.

(** *** The blocklist: which entries block *)

Lemma contains_empty (hay : string) : Str.contains hay "" = true.
Proof. destruct hay; reflexivity. Qed.

Lemma lower_char_idem (c : ascii) :
  Str.lower_char (Str.lower_char c) = Str.lower_char c.
Proof. destruct c as [[] [] [] [] [] [] [] []]; vm_compute; reflexivity. Qed.

Lemma lower_idem (s : string) : Str.lower (Str.lower s) = Str.lower s.
Proof.
  induction s as [| c s IH]; [reflexivity |].
  cbn [Str.lower]. now rewrite lower_char_idem, IH.
Qed.

Lemma lower_drop (n : nat) (s : string) :
  Str.drop n (Str.lower s) = Str.lower (Str.drop n s).
Proof.
  revert s. induction n as [| n IH]; intros [| c s]; try reflexivity.
  cbn [Str.lower Str.drop]. apply IH.
Qed.

(** The text that [is_domain_blocked] searches is in lower case. *)
Lemma strip_www_lower (netloc : string) :
  exists h, domain_blocker.strip_www (Str.lower netloc) = Str.lower h.
Proof.
  unfold domain_blocker.strip_www.
  destruct (Str.startswith (Str.lower netloc) "www.").
  - exists (Str.drop 4 netloc). apply lower_drop.
  - now exists netloc.
Qed.

Lemma startswith_lower (s p : string) :
  Str.startswith (Str.lower s) p = true -> Str.lower p = p.
Proof.
  revert s. induction p as [| a p IH]; intros s H; [reflexivity |].
  destruct s as [| b s]; [discriminate H |].
  cbn [Str.lower Str.startswith] in H.
  apply andb_true_iff in H as [Hab Hrest].
  apply Ascii.eqb_eq in Hab. subst a.
  cbn [Str.lower]. rewrite lower_char_idem. f_equal. exact (IH s Hrest).
Qed.

Lemma contains_lower (s needle : string) :
  Str.contains (Str.lower s) needle = true -> Str.lower needle = needle.
Proof.
  induction s as [| c s IH]; cbn [Str.lower Str.contains]; intros H.
  - apply orb_true_iff in H as [H | H]; [| discriminate H].
    destruct needle; [reflexivity | discriminate H].
  - apply orb_true_iff in H as [H | H]; [| exact (IH H)].
    exact (startswith_lower (String c s) needle H).
Qed.

(** X3.  Adding a domain blocks every URL whose host shows the domain in
    lower case, whatever the case in which the domain was given, and
    blocks every URL that was blocked before; more generally a larger
    blocklist blocks at least what a smaller one does. *)
Theorem add_blocked_domain_blocks :
  forall (self : gset string) (domain url : string) parsed,
    urllib_parse.urlparse url = Return parsed ->
    let host := domain_blocker.strip_www (Str.lower (urllib_parse.netloc parsed)) in
    (Str.contains host (Str.lower domain) = true ->
     domain_blocker.is_domain_blocked
       (domain_blocker.add_blocked_domain self domain) url = Return true) /\
    (forall larger : gset string,
       self ⊆ larger ->
       domain_blocker.is_domain_blocked self url = Return true ->
       domain_blocker.is_domain_blocked larger url = Return true) /\
    (domain_blocker.is_domain_blocked self url = Return true ->
     domain_blocker.is_domain_blocked
       (domain_blocker.add_blocked_domain self domain) url = Return true).
Proof.
  intros self domain url parsed Hparse host.
  assert (Hmono : forall small large : gset string,
            small ⊆ large ->
            domain_blocker.is_domain_blocked small url = Return true ->
            domain_blocker.is_domain_blocked large url = Return true).
  { intros small large Hsub.
    rewrite !(is_domain_blocked_parsed _ _ _ Hparse). intros [= Hb].
    f_equal. apply existsb_elements. apply existsb_elements in Hb.
    destruct Hb as (b & Hin & Hb). exists b. split; [set_solver | exact Hb]. }
  split; [| split].
  - intros Hsub. rewrite (is_domain_blocked_parsed _ _ _ Hparse). f_equal.
    apply existsb_elements. exists (Str.lower domain). split; [| exact Hsub].
    unfold domain_blocker.add_blocked_domain. set_solver.
  - exact (Hmono self).
  - apply Hmono. unfold domain_blocker.add_blocked_domain. set_solver.
Qed.

Lemma add_blocked_domain_blocks_witness :
  domain_blocker.is_domain_blocked
    (domain_blocker.add_blocked_domain
       domain_blocker.DEFAULT_BLOCKED_DOMAINS "Example.com")
    "https://EXAMPLE.COM" = Return true.
Proof.
  apply (proj1 (add_blocked_domain_blocks domain_blocker.DEFAULT_BLOCKED_DOMAINS
                  "Example.com" "https://EXAMPLE.COM"
                  (urllib_parse.mk_ParseResult "https" "EXAMPLE.COM" "" "" "" "")
                  eq_refl)).
  reflexivity.
Defined.

(** X4.  An empty entry, which [add_blocked_domain("")] or a configuration
    file can put into the set, blocks every URL that parses, also one
    without a host. *)
Theorem empty_entry_blocks_everything :
  forall (self : gset string) (url : string) parsed,
    urllib_parse.urlparse url = Return parsed ->
    (""%string ∈ self ->
     domain_blocker.is_domain_blocked self url = Return true) /\
    domain_blocker.is_domain_blocked
      (domain_blocker.add_blocked_domain self "") url = Return true.
Proof.
  intros self url parsed Hparse.
  assert (H : forall s : gset string, ""%string ∈ s ->
              domain_blocker.is_domain_blocked s url = Return true).
  { intros s Hin. rewrite (is_domain_blocked_parsed _ _ _ Hparse). f_equal.
    apply existsb_elements. exists ""%string. split; [exact Hin |].
    apply contains_empty. }
  split; [apply H |].
  apply H. unfold domain_blocker.add_blocked_domain. cbn [Str.lower]. set_solver.
Qed.

Lemma empty_entry_blocks_everything_witness :
  domain_blocker.is_domain_blocked
    (domain_blocker.add_blocked_domain domain_blocker.DEFAULT_BLOCKED_DOMAINS "")
    "not-a-valid-url" = Return true.
Proof.
  exact (proj2 (empty_entry_blocks_everything domain_blocker.DEFAULT_BLOCKED_DOMAINS
                  "not-a-valid-url"
                  (urllib_parse.mk_ParseResult "" "" "not-a-valid-url" "" "" "")
                  eq_refl)).
Defined.

(** X5.  An entry that is not in lower case never blocks anything: the host
    is lowercased before the search, the entries are searched as they
    are.  [add_blocked_domain] lowercases what it adds, [load_config]
    does not, so a domain written with a capital letter in a
    configuration file has no effect. *)
Theorem entry_with_capitals_is_dead :
  forall (self : gset string) (entry url : string),
    Str.lower entry <> entry ->
    domain_blocker.is_domain_blocked ({[ entry ]} ∪ self) url =
    domain_blocker.is_domain_blocked self url.
Proof.
  intros self entry url Hcap.
  destruct (urllib_parse.urlparse url) as [parsed | e] eqn:Hparse.
  2:{ now rewrite !(is_domain_blocked_unparsed _ _ _ Hparse). }
  rewrite !(is_domain_blocked_parsed _ _ _ Hparse). f_equal.
  apply eq_true_iff_eq. rewrite !existsb_elements.
  split; intros (b & Hin & Hb).
  - exists b. split; [| exact Hb].
    apply elem_of_union in Hin as [Hin | Hin]; [| exact Hin].
    apply elem_of_singleton in Hin. subst b.
    destruct (strip_www_lower (urllib_parse.netloc parsed)) as [h Hh].
    rewrite Hh in Hb. apply contains_lower in Hb. contradiction.
  - exists b. split; [set_solver | exact Hb].
Qed.

Lemma entry_with_capitals_is_dead_witness :
  domain_blocker.is_domain_blocked ({[ "Example.com"%string ]} ∪ ∅) "https://example.com"
    = domain_blocker.is_domain_blocked ∅ "https://example.com".
Proof.
  apply (entry_with_capitals_is_dead ∅ "Example.com" "https://example.com").
  vm_compute. discriminate.
Defined.

(** *** The blocklist: adding, removing, loading, saving *)

(** X6.  After a domain was added, removing it under any spelling with the
    same lower case succeeds; the set is then the one before the
    addition without the domain, and exactly the one before when the
    domain was new. *)
Theorem add_then_remove :
  forall (self : gset string) (added removed : string),
    Str.lower removed = Str.lower added ->
    domain_blocker.remove_blocked_domain
      (domain_blocker.add_blocked_domain self added) removed =
      (Return tt, self ∖ {[ Str.lower added ]}) /\
    (Str.lower added ∉ self ->
     domain_blocker.remove_blocked_domain
       (domain_blocker.add_blocked_domain self added) removed = (Return tt, self)).
Proof.
  intros self added removed Hsame.
  assert (Hrem : domain_blocker.remove_blocked_domain
                   (domain_blocker.add_blocked_domain self added) removed =
                 (Return tt, self ∖ {[ Str.lower added ]})).
  { rewrite remove_present_domain.
    - rewrite Hsame. unfold domain_blocker.add_blocked_domain.
      f_equal. apply leibniz_equiv. set_solver.
    - rewrite Hsame. unfold domain_blocker.add_blocked_domain. set_solver. }
  split; [exact Hrem |].
  intros Hnew. rewrite Hrem. f_equal. apply leibniz_equiv. set_solver.
Qed.

Lemma add_then_remove_witness :
  domain_blocker.remove_blocked_domain
    (domain_blocker.add_blocked_domain
       domain_blocker.DEFAULT_BLOCKED_DOMAINS "Example.COM") "EXAMPLE.com" =
    (Return tt, domain_blocker.DEFAULT_BLOCKED_DOMAINS).
Proof.
  apply (proj2 (add_then_remove domain_blocker.DEFAULT_BLOCKED_DOMAINS
                  "Example.COM" "EXAMPLE.com" eq_refl)).
  vm_compute. intros H. discriminate H.
Defined.

Lemma dict_get_absent (members : list (string * json)) (key : string) (default : json) :
  Forall (fun member => fst member <> key) members ->
  domain_blocker.dict_get members key default = default.
Proof.
  induction 1 as [| [k v] members Hk _ IH]; [reflexivity |].
  cbn [domain_blocker.dict_get]. cbn [fst] in Hk.
  apply String.eqb_neq in Hk. now rewrite Hk.
Qed.

Lemma mapM_as_str_None (items : list json) :
  Exists (fun item => forall s, item <> JStr s) items ->
  mapM domain_blocker.as_str items = None.
Proof.
  induction 1 as [item items Hitem | item items _ IH].
  - destruct item as [s | |]; [now destruct (Hitem s) | reflexivity | reflexivity].
  - cbn. destruct (domain_blocker.as_str item); [| reflexivity].
    cbn. now rewrite IH.
Qed.

(** X7.  The failures and edge cases of [load_config]; the set is never
    touched when the call fails.  A file that cannot be opened (OSError)
    and a text that json.load rejects (JSONDecodeError) raise
    DomainBlockerError "Failed to load configuration: " with the text of
    the cause.  Whatever else opening or reading raises is raised as it
    is: the UnicodeDecodeError of a file that is not UTF-8 text and the
    ValueError of a path with a NUL character are not caught.  A
    document that is a list or a string at the top has no [get]: the
    AttributeError is raised as it is, and so is the TypeError for a
    list of domains that holds a list or an object.  An object without
    the key 'blocked_domains' loads successfully and adds nothing. *)
Theorem load_config_failures :
  forall (self : gset string) (config_path : string) (fs : FS),
    let outcome := domain_blocker.load_config self config_path fs in
    (forall e after, outcome = (Raise e, after) -> after = self) /\
    (files fs !! config_path = None ->
     outcome =
       (Raise (mk_exn DomainBlockerError
                 ("Failed to load configuration: " +:+ strerror fs config_path)),
        self)) /\
    (forall why, files fs !! config_path = Some (NotJson why) ->
     outcome =
       (Raise (mk_exn DomainBlockerError ("Failed to load configuration: " +:+ why)),
        self)) /\
    (forall e, files fs !! config_path = Some (Unreadable e) ->
       isinstance e [JSONDecodeError; OSError] = true ->
       outcome =
         (Raise (mk_exn DomainBlockerError
                   ("Failed to load configuration: " +:+ exn_msg e)),
          self)) /\
    (forall e, files fs !! config_path = Some (Unreadable e) ->
       isinstance e [JSONDecodeError; OSError] = false ->
       outcome = (Raise e, self)) /\
    (forall e, exn_cls e = UnicodeDecodeError \/ exn_cls e = ValueError ->
       isinstance e [JSONDecodeError; OSError] = false) /\
    (forall doc, files fs !! config_path = Some (Document doc) ->
       (forall members, doc <> JDict members) ->
       exists e, outcome = (Raise e, self) /\ exn_cls e = AttributeError) /\
    (forall members items,
       files fs !! config_path = Some (Document (JDict members)) ->
       domain_blocker.dict_get members "blocked_domains" (JList []) = JList items ->
       Exists (fun item => forall s, item <> JStr s) items ->
       exists e, outcome = (Raise e, self) /\ exn_cls e = TypeError) /\
    (forall members,
       files fs !! config_path = Some (Document (JDict members)) ->
       Forall (fun member => fst member <> "blocked_domains"%string) members ->
       outcome = (Return tt, self)).
Proof.
  intros self config_path fs outcome. subst outcome.
  split.
  { intros e after Hraise.
    pose proof (load_config_outcome self config_path fs) as Hout.
    destruct (parsed_domains fs config_path) as [parsed | e0].
    - rewrite Hout in Hraise. discriminate Hraise.
    - destruct Hout as [e' Hout]. rewrite Hout in Hraise. congruence. }
  unfold domain_blocker.load_config, domain_blocker.read_json.
  split; [intros ->; reflexivity |].
  split; [intros why ->; reflexivity |].
  split; [intros e -> Hcaught; cbn [Pure.bind]; now rewrite Hcaught |].
  split; [intros e -> Hcaught; cbn [Pure.bind]; now rewrite Hcaught |].
  split; [intros [cls msg] [Hcls | Hcls]; cbn [exn_cls] in Hcls; subst cls;
          reflexivity |].
  split.
  { intros doc -> Hnot.
    destruct doc as [s | items | members];
      [eexists; split; reflexivity | eexists; split; reflexivity |].
    now destruct (Hnot members). }
  split.
  { intros members items -> Hget Hbad.
    cbn [Pure.bind domain_blocker.config_get]. rewrite Hget.
    cbn [domain_blocker.to_set]. rewrite (mapM_as_str_None _ Hbad).
    eexists; split; reflexivity. }
  intros members -> Habsent.
  cbn [Pure.bind domain_blocker.config_get].
  rewrite (dict_get_absent _ _ _ Habsent).
  cbn. f_equal. apply leibniz_equiv. set_solver.
Qed.

Lemma load_config_failures_witness :
  let undecodable :=
    mk_exn UnicodeDecodeError "'utf-8' codec can't decode byte 0xff in position 0" in
  let fs := mk_FS {[ "config.json"%string := Document (JList [JStr "test.com"]);
                     "photo.jpg"%string := Unreadable undecodable ]} ∅
              (fun _ => "[Errno 2] No such file or directory"%string) in
  domain_blocker.load_config domain_blocker.DEFAULT_BLOCKED_DOMAINS "nonexistent.json" fs =
    (Raise (mk_exn DomainBlockerError
              "Failed to load configuration: [Errno 2] No such file or directory"),
     domain_blocker.DEFAULT_BLOCKED_DOMAINS) /\
  domain_blocker.load_config domain_blocker.DEFAULT_BLOCKED_DOMAINS "photo.jpg" fs =
    (Raise undecodable, domain_blocker.DEFAULT_BLOCKED_DOMAINS) /\
  exists e,
    domain_blocker.load_config domain_blocker.DEFAULT_BLOCKED_DOMAINS "config.json" fs =
      (Raise e, domain_blocker.DEFAULT_BLOCKED_DOMAINS) /\
    exn_cls e = AttributeError.
Proof.
  intros undecodable fs. split; [| split].
  - destruct (load_config_failures domain_blocker.DEFAULT_BLOCKED_DOMAINS
                "nonexistent.json" fs) as (_ & Hmissing & _).
    apply Hmissing. vm_compute. reflexivity.
  - destruct (load_config_failures domain_blocker.DEFAULT_BLOCKED_DOMAINS
                "photo.jpg" fs) as (_ & _ & _ & _ & Hother & _).
    apply Hother; vm_compute; reflexivity.
  - destruct (load_config_failures domain_blocker.DEFAULT_BLOCKED_DOMAINS
                "config.json" fs) as (_ & _ & _ & _ & _ & _ & Hattr & _).
    apply (Hattr (JList [JStr "test.com"])); [vm_compute; reflexivity | discriminate].
Defined.

(** X8.  A new DomainBlocker holds the default domains, with or without a
    configuration file; an empty path counts as no path and reads
    nothing.  A file that cannot be opened or whose text json.load
    rejects leaves no object: the constructor raises the
    DomainBlockerError of [load_config].  Whatever else opening or
    reading the file raises (the UnicodeDecodeError of a file that is
    not text, the ValueError of a path with a NUL character) leaves the
    constructor as it is. *)
Theorem init_keeps_defaults :
  forall (config_path : string) (fs : FS),
    domain_blocker.init None fs = Return domain_blocker.DEFAULT_BLOCKED_DOMAINS /\
    domain_blocker.init (Some ""%string) fs
      = Return domain_blocker.DEFAULT_BLOCKED_DOMAINS /\
    (forall self, domain_blocker.init (Some config_path) fs = Return self ->
                  domain_blocker.DEFAULT_BLOCKED_DOMAINS ⊆ self) /\
    (config_path <> ""%string -> files fs !! config_path = None ->
     domain_blocker.init (Some config_path) fs =
       Raise (mk_exn DomainBlockerError
                ("Failed to load configuration: " +:+ strerror fs config_path))) /\
    (forall why,
       config_path <> ""%string -> files fs !! config_path = Some (NotJson why) ->
       domain_blocker.init (Some config_path) fs =
         Raise (mk_exn DomainBlockerError ("Failed to load configuration: " +:+ why))) /\
    (forall e,
       config_path <> ""%string -> files fs !! config_path = Some (Unreadable e) ->
       domain_blocker.init (Some config_path) fs =
         if isinstance e [JSONDecodeError; OSError]
         then Raise (mk_exn DomainBlockerError
                       ("Failed to load configuration: " +:+ exn_msg e))
         else Raise e).
Proof.
  intros config_path fs.
  split; [reflexivity |]. split; [reflexivity |].
  unfold domain_blocker.init.
  destruct config_path as [| c p].
  { cbn [Str.is_empty]. split; [intros self [= <-]; reflexivity |].
    split; [intros H; now destruct H |].
    split; [intros why H; now destruct H | intros e H; now destruct H]. }
  cbn [Str.is_empty].
  pose proof (load_config_outcome domain_blocker.DEFAULT_BLOCKED_DOMAINS
                (String c p) fs) as Hout.
  split.
  { intros self.
    destruct (parsed_domains fs (String c p)) as [parsed | e].
    - rewrite Hout. intros [= <-]. set_solver.
    - destruct Hout as [e' ->]. discriminate. }
  unfold domain_blocker.load_config, domain_blocker.read_json.
  split; [intros _ ->; reflexivity |].
  split; [intros why _ ->; reflexivity |].
  intros e _ ->. cbn [Pure.bind]. now case_handler.
Qed.

Lemma init_keeps_defaults_witness :
  let fs := mk_FS ∅ ∅ (fun _ => "[Errno 2] No such file or directory"%string) in
  domain_blocker.init (Some "nonexistent.json"%string) fs =
    Raise (mk_exn DomainBlockerError
             "Failed to load configuration: [Errno 2] No such file or directory").
Proof.
  intros fs.
  destruct (init_keeps_defaults "nonexistent.json" fs) as (_ & _ & _ & Hmissing & _).
  apply Hmissing; [discriminate | vm_compute; reflexivity].
Defined.

(** *** The validators and the browser *)


(** The trace of the pipeline: nothing, or the one HEAD request; the
    latter whenever a URL is returned. *)
Lemma validate_url_with_reachability_trace env url timeout blocker t :
  let outcome := validators.validate_url_with_reachability url timeout blocker env t in
  (snd outcome = t \/ snd outcome = t ++ [Head url timeout]) /\
  (forall final_url, fst outcome = Return final_url ->
                     snd outcome = t ++ [Head url timeout]).
Proof.
  cbv zeta.
  assert (Hprobe : snd (validators.check_url_reachability url timeout env t)
                   = t ++ [Head url timeout]).
  { unfold validators.check_url_reachability, try_except, bind, http_head.
    destruct (requests_head env url timeout) as [response | e].
    - repeat case_handler; reflexivity.
    - cbn [first_match]. repeat case_handler; reflexivity. }
  assert (Hpassed :
    let outcome :=
      match validators.check_url_reachability url timeout env t with
      | (Return (final_url, _), t') => (Return final_url, t')
      | (Raise e, t') => (Raise e, t')
      end in
    (snd outcome = t \/ snd outcome = t ++ [Head url timeout]) /\
    (forall final_url : string, fst outcome = Return final_url ->
                                snd outcome = t ++ [Head url timeout])).
  { destruct (validators.check_url_reachability url timeout env t) as [[[u r] | e] t'];
      cbn [fst snd] in *; subst t'; split; auto. }
  destruct (validators.is_well_formed_url url) as [[|] | e] eqn:Hwf.
  2,3: unfold validators.validate_url_with_reachability, bind, lift; rewrite Hwf;
       cbn [negb raise fst snd]; split; [now left | discriminate].
  destruct (validators.is_valid_scheme url) as [[|] | e] eqn:Hvs.
  2,3: unfold validators.validate_url_with_reachability, bind, lift; rewrite Hwf, Hvs;
       cbn [negb raise fst snd]; split; [now left | discriminate].
  destruct blocker as [self |].
  - destruct (domain_blocker.is_domain_blocked self url) as [[|] | e] eqn:Hb.
    1,3: unfold validators.validate_url_with_reachability, bind, lift;
         rewrite Hwf, Hvs, Hb; cbn [negb raise fst snd];
         split; [now left | discriminate].
    rewrite (validate_url_with_reachability_passed _ _ _ _ _ Hwf Hvs);
      [exact Hpassed | intros s [= <-]; exact Hb].
  - rewrite (validate_url_with_reachability_passed _ _ _ _ _ Hwf Hvs);
      [exact Hpassed | discriminate].
Qed.

(** X10.  [validate_url] returns its argument, and it accepts exactly the
    strings that pass the format and the scheme check; these are the
    strings for which the pipeline without a blocklist goes on to the
    HEAD request, every other string is rejected without a request. *)
Theorem validators_accept_the_same :
  forall (url : string),
    (forall u, validators.validate_url url = Return u -> u = url) /\
    (validators.validate_url url = Return url <->
     validators.is_well_formed_url url = Return true /\
     validators.is_valid_scheme url = Return true) /\
    (forall env timeout t,
       validators.validate_url url = Return url <->
       snd (validators.validate_url_with_reachability url timeout None env t)
         = t ++ [Head url timeout]).
Proof.
  intros url.
  destruct (is_well_formed_url_total url) as [wf Hwf].
  destruct (is_valid_scheme_total url) as [vs Hvs].
  assert (Hiff : validators.validate_url url = Return url <-> wf = true /\ vs = true).
  { unfold validators.validate_url. rewrite Hwf, Hvs.
    destruct url as [| c s].
    - vm_compute in Hvs. injection Hvs as <-. cbn. split; [discriminate | intros [_ [=]]].
    - cbn [Str.is_empty Pure.bind].
      destruct vs, wf; cbn [negb]; split; try discriminate; auto;
        intros [? ?]; discriminate. }
  split; [| split].
  - unfold validators.validate_url. rewrite Hwf, Hvs.
    destruct (Str.is_empty url); [discriminate |].
    cbn [Pure.bind]. destruct vs; [| discriminate].
    destruct wf; [| discriminate]. cbn [negb]. now intros u [= <-].
  - rewrite Hiff, Hwf, Hvs. split; intros [H1 H2]; split; congruence.
  - intros env timeout t. rewrite Hiff.
    unfold validators.validate_url_with_reachability, bind, lift.
    rewrite Hwf.
    assert (Hne : t <> t ++ [Head url timeout]).
    { intros Heq. apply (f_equal (@length event)) in Heq.
      rewrite length_app in Heq. cbn in Heq. lia. }
    destruct wf; cbn [negb raise snd].
    2:{ split; [intros [[=] _] | intros H; now destruct Hne]. }
    rewrite Hvs. destruct vs; cbn [negb raise snd].
    2:{ split; [intros [_ [=]] | intros H; now destruct Hne]. }
    unfold ret at 1. split; [intros _ | auto].
    unfold validators.check_url_reachability, try_except, bind, http_head.
    destruct (requests_head env url timeout) as [response | e].
    + repeat case_handler; reflexivity.
    + cbn [first_match]. repeat case_handler; reflexivity.
Qed.



(** X12.  [open_url_in_browser] does not call the browser for a URL without
    scheme or host and answers (False, "Invalid URL format").
    Otherwise it calls the browser once: True from the browser gives
    (True, "URL opened successfully"), False gives (False, "Failed to
    open URL"), and whatever the browser raises becomes the module's
    BrowserError, "Browser error: ..." for a webbrowser.Error and
    "Unexpected error opening URL: ..." for anything else. *)
Theorem open_url_in_browser_outcomes :
  forall env url t,
    let outcome := browser_handler.open_url_in_browser url env t in
    (browser_handler.validate_url url = Return false ->
     outcome = (Return (false, "Invalid URL format"%string), t)) /\
    (browser_handler.validate_url url = Return true ->
     snd outcome = t ++ [BrowserOpen url] /\
     (webbrowser_open env url = Return true ->
      fst outcome = Return (true, "URL opened successfully"%string)) /\
     (webbrowser_open env url = Return false ->
      fst outcome = Return (false, "Failed to open URL"%string)) /\
     (forall e, webbrowser_open env url = Raise e ->
        (issubclass (exn_cls e) WebbrowserError = true ->
         fst outcome =
           Raise (mk_exn Bro_BrowserError ("Browser error: " +:+ exn_msg e))) /\
        (issubclass (exn_cls e) WebbrowserError = false ->
         fst outcome =
           Raise (mk_exn Bro_BrowserError
                    ("Unexpected error opening URL: " +:+ exn_msg e))))).
Proof.
  intros env url t outcome. subst outcome.
  unfold browser_handler.open_url_in_browser, bind at 1, lift.
  split; [intros ->; reflexivity |].
  intros ->. unfold try_except, bind, browser_open.
  change (negb true) with false. cbv beta iota.
  destruct (webbrowser_open env url) as [[|] | e].
  - split; [reflexivity |]. split; [reflexivity |]. split; [discriminate |].
    intros e [=].
  - split; [reflexivity |]. split; [discriminate |]. split; [reflexivity |].
    intros e [=].
  - cbn [first_match isinstance existsb]. rewrite !orb_false_r.
    rewrite issubclass_Exception.
    destruct (issubclass (exn_cls e) WebbrowserError) eqn:Hcls.
    + split; [reflexivity |]. split; [discriminate |]. split; [discriminate |].
      intros e0 [= <-]. rewrite Hcls. split; [reflexivity | discriminate].
    + split; [reflexivity |]. split; [discriminate |]. split; [discriminate |].
      intros e0 [= <-]. rewrite Hcls. split; [discriminate | reflexivity].
Qed.

Lemma open_url_in_browser_outcomes_witness :
  let env := env_of (Raise (mk_exn Timeout "")) (Raise (mk_exn Timeout "")) in
  browser_handler.open_url_in_browser "archive.is/abc123" env [] =
    (Return (false, "Invalid URL format"%string), []).
Proof.
  intros env.
  apply (proj1 (open_url_in_browser_outcomes env "archive.is/abc123" [])).
  reflexivity.
Defined.

Lemma validators_accept_the_same_witness :
  validators.validate_url "https://example.com" = Return "https://example.com"%string.
Proof.
  apply (proj1 (proj2 (validators_accept_the_same "https://example.com"))).
  split; reflexivity.
Defined.

(** *** What the stages raise *)

Section WhatIsRaised.

Variable env : Env.

(** What the documentation of [requests] promises: a request that fails
    raises a RequestException. *)
Hypothesis head_raises :
  forall target timeout e,
    requests_head env target timeout = Raise e ->
    issubclass (exn_cls e) RequestException = true.
Hypothesis get_raises :
  forall target timeout e,
    requests_get env target timeout = Raise e ->
    issubclass (exn_cls e) RequestException = true.

Lemma check_url_reachability_raises url timeout t e :
  fst (validators.check_url_reachability url timeout env t) = Raise e ->
  exn_cls e = Val_URLReachabilityError.
Proof.
  unfold validators.check_url_reachability, try_except, bind, http_head.
  destruct (requests_head env url timeout) as [response | e0] eqn:Hprobe.
  - repeat case_handler; cbn [fst raise ret]; intros [= <-]; reflexivity.
  - pose proof (head_raises _ _ _ Hprobe) as Hreq.
    cbn [first_match isinstance existsb]. rewrite !orb_false_r, Hreq.
    repeat case_handler; cbn [fst raise]; intros [= <-]; reflexivity.
Qed.

Lemma validate_url_with_reachability_raises_own url timeout t e :
  fst (validators.validate_url_with_reachability url timeout None env t) = Raise e ->
  exn_cls e = Val_URLValidationError \/ exn_cls e = Val_URLReachabilityError.
Proof.
  destruct (is_well_formed_url_total url) as [wf Hwf].
  destruct (is_valid_scheme_total url) as [vs Hvs].
  destruct wf.
  2:{ unfold validators.validate_url_with_reachability, bind, lift. rewrite Hwf.
      cbn [negb raise fst]. intros [= <-]. now left. }
  destruct vs.
  2:{ unfold validators.validate_url_with_reachability, bind, lift. rewrite Hwf, Hvs.
      cbn [negb raise fst]. intros [= <-]. now left. }
  rewrite (validate_url_with_reachability_passed _ _ _ _ _ Hwf Hvs); [| discriminate].
  pose proof (check_url_reachability_raises url timeout t) as Hcheck.
  destruct (validators.check_url_reachability url timeout env t) as [[[u r] | e'] t'];
    cbn [fst] in *; [discriminate |].
  intros [= <-]. right. now apply Hcheck.
Qed.

Lemma get_latest_archive_raises url timeout t e :
  fst (archive_service.get_latest_archive url timeout env t) = Raise e ->
  exn_cls e = ArchiveNotFoundError \/
  exn_cls e = ArchiveServiceUnavailableError \/
  exn_cls e = ArchiveServiceError.
Proof.
  rewrite get_latest_archive_answer.
  destruct (requests_get env _ timeout) as [response | e0] eqn:Hget.
  - cbv zeta. repeat case_handler; intros [= <-]; auto.
  - rewrite (get_raises _ _ _ Hget). intros [= <-]. auto.
Qed.

End WhatIsRaised.

(** Whatever the browser does, [open_url_in_browser] raises nothing but
    the BrowserError of its own module. *)
Lemma open_url_in_browser_raises env url t e :
  fst (browser_handler.open_url_in_browser url env t) = Raise e ->
  exn_cls e = Bro_BrowserError.
Proof.
  unfold browser_handler.open_url_in_browser, bind at 1, lift.
  destruct (browser_handler.validate_url url) as [[|] | e0] eqn:Hvalid.
  - unfold try_except, bind, browser_open.
    change (negb true) with false. cbv beta iota.
    destruct (webbrowser_open env url) as [[|] | e0]; try discriminate.
    cbn [first_match isinstance existsb]. rewrite !orb_false_r, issubclass_Exception.
    case_handler; cbn [fst raise]; intros [= <-]; reflexivity.
  - discriminate.
  - unfold browser_handler.validate_url in Hvalid.
    destruct (try_except_Exception_total
                (Pure.bind (urllib_parse.urlparse url) (fun result =>
                   Return (negb (Str.is_empty (urllib_parse.scheme result)) &&
                           negb (Str.is_empty (urllib_parse.netloc result)))))
                false) as [v Hv].
    rewrite Hv in Hvalid. discriminate Hvalid.
Qed.

(** The trace of [open_url_in_browser]: nothing or the one call. *)
Lemma open_url_in_browser_trace env url t :
  let outcome := browser_handler.open_url_in_browser url env t in
  snd outcome = t \/ snd outcome = t ++ [BrowserOpen url].
Proof.
  cbv zeta.
  unfold browser_handler.open_url_in_browser, bind at 1, lift.
  destruct (browser_handler.validate_url url) as [[|] | e0]; [| now left | now left].
  right. unfold try_except, bind, browser_open.
  change (negb true) with false. cbv beta iota.
  destruct (webbrowser_open env url) as [[|] | e0]; try reflexivity.
  cbn [first_match]. repeat case_handler; reflexivity.
Qed.

(** *** The command line *)

(** [try: ...] around a sequence whose first step raises, or returns. *)
Lemma try_bind_raise {A B : Type} (m : M A) (k : A -> M B) cs env t e t1 :
  m env t = (Raise e, t1) ->
  try_except (bind m k) cs env t =
    match first_match cs e with
    | Some handler => handler env t1
    | None => (Raise e, t1)
    end.
Proof. intros Hm. unfold try_except, bind. now rewrite Hm. Qed.

(** Runs the handler that a known class selects. *)
Ltac handled :=
  unfold unexpected_error_lines;
  cbn [first_match];
  repeat match goal with
         | |- context [isinstance ?e ?cs] =>
             let b := eval vm_compute in (isinstance e cs) in
             change (isinstance e cs) with b; cbv iota
         end;
  try unfold bind; try unfold print_stderr; try unfold ret; cbv beta iota;
  rewrite <- ?app_assoc; reflexivity.

Lemma try_bind_return {A B : Type} (m : M A) (k : A -> M B) cs env t a t1 :
  m env t = (Return a, t1) ->
  try_except (bind m k) cs env t = try_except (k a) cs env t1.
Proof. intros Hm. unfold try_except, bind. now rewrite Hm. Qed.

(** The [try] statement of [main], stage by stage, for arguments that
    have been parsed and requests whose failures are instances of
    RequestException. *)
Lemma main_parsed_exit_codes :
  forall env args t,
    (forall target timeout e,
       requests_head env target timeout = Raise e ->
       issubclass (exn_cls e) RequestException = true) ->
    (forall target timeout e,
       requests_get env target timeout = Raise e ->
       issubclass (exn_cls e) RequestException = true) ->
    (exists code t', cli.main args env t = (Return code, t') /\
                     In code [0; 1; 4; 5; 7]) /\
    match validators.validate_url_with_reachability
            (cli.url args) default_timeout None env t with
    | (Raise e, t1) =>
        cli.main args env t = (Return 1, t1 ++ unexpected_error_lines e)
    | (Return validated_url, t1) =>
        match archive_service.get_latest_archive validated_url default_timeout env t1 with
        | (Raise e, t2) =>
            (exn_cls e = ArchiveNotFoundError /\
             cli.main args env t =
               (Return 4,
                t2 ++ [ Stderr ("Error: No archived version found for " +:+ cli.url args);
                        Stderr "Tip: You can try again later as the page might be archived in the future." ])) \/
            (exn_cls e = ArchiveServiceUnavailableError /\
             cli.main args env t =
               (Return 5,
                t2 ++ [ Stderr ("Error: Archive.is service unavailable - " +:+ exn_msg e);
                        Stderr "Tip: Please wait a few minutes and try again." ])) \/
            (exn_cls e = ArchiveServiceError /\
             cli.main args env t =
               (Return 7,
                t2 ++ [ Stderr ("Error: Archive service error - " +:+ exn_msg e) ]))
        | (Return archive_url, t2) =>
            match browser_handler.open_url_in_browser archive_url env t2 with
            | (Return (true, _), t3) => cli.main args env t = (Return 0, t3)
            | (Return (false, _), t3) => cli.main args env t = (Return 1, t3)
            | (Raise e, t3) =>
                cli.main args env t = (Return 1, t3 ++ unexpected_error_lines e)
            end
        end
    end.
Proof.
  intros env args t Hhead Hget.
  match goal with
  | |- ?A /\ ?B => assert (Hstages : B); [| split; [| exact Hstages]]
  end.
  - unfold cli.main.
    pose proof (validate_url_with_reachability_raises_own env Hhead
                  (cli.url args) default_timeout t) as Hval.
    destruct (validators.validate_url_with_reachability
                (cli.url args) default_timeout None env t)
      as [[validated_url | e1] t1] eqn:Hv.
    2:{ rewrite (try_bind_raise _ _ _ _ _ _ _ Hv).
        destruct e1 as [cls msg].
        destruct (Hval _ eq_refl) as [Hc | Hc]; cbn [exn_cls] in Hc; subst cls;
          handled. }
    rewrite (try_bind_return _ _ _ _ _ _ _ Hv).
    pose proof (get_latest_archive_raises env Hget validated_url default_timeout t1)
      as Hlook.
    destruct (archive_service.get_latest_archive validated_url default_timeout env t1)
      as [[archive_url | e2] t2] eqn:Hl.
    2:{ rewrite (try_bind_raise _ _ _ _ _ _ _ Hl).
        destruct e2 as [cls msg].
        destruct (Hlook _ eq_refl) as [Hc | [Hc | Hc]]; cbn [exn_cls] in Hc; subst cls.
        - left. split; [reflexivity | handled].
        - right; left. split; [reflexivity | handled].
        - right; right. split; [reflexivity | handled]. }
    rewrite (try_bind_return _ _ _ _ _ _ _ Hl).
    pose proof (open_url_in_browser_raises env archive_url t2) as Hopen.
    destruct (browser_handler.open_url_in_browser archive_url env t2)
      as [[[[|] note] | e3] t3] eqn:Ho.
    + rewrite (try_bind_return _ _ _ _ _ _ _ Ho). reflexivity.
    + rewrite (try_bind_return _ _ _ _ _ _ _ Ho). reflexivity.
    + rewrite (try_bind_raise _ _ _ _ _ _ _ Ho).
      destruct e3 as [cls msg]. specialize (Hopen _ eq_refl).
      cbn [exn_cls] in Hopen. subst cls. handled.
  - destruct (validators.validate_url_with_reachability
                (cli.url args) default_timeout None env t)
      as [[validated_url | e1] t1].
    2:{ rewrite Hstages. do 2 eexists. split; [reflexivity | cbn; auto]. }
    destruct (archive_service.get_latest_archive validated_url default_timeout env t1)
      as [[archive_url | e2] t2].
    2:{ destruct Hstages as [[_ ->] | [[_ ->] | [_ ->]]];
          do 2 eexists; (split; [reflexivity | cbn; auto 6]). }
    destruct (browser_handler.open_url_in_browser archive_url env t2)
      as [[[[|] note] | e3] t3]; rewrite Hstages;
      do 2 eexists; (split; [reflexivity | cbn; auto]).
Qed.

Lemma main_argv_parsed parse_args argv args env t r t' :
  parse_args argv = inl args ->
  cli.main args env t = (r, t') ->
  cli.main_argv parse_args argv env t = (cli.Ends r, t').
Proof. intros Hparse Hmain. unfold cli.main_argv. now rewrite Hparse, Hmain. Qed.

(** X13.  How [main(argv)] ends, when failing requests raise
    RequestException as [requests] documents.  When the argument parser
    leaves by SystemExit (no URL, an unknown option, --help, --version),
    so does [main], with the parser's status and output and before any
    request.  Otherwise [main] returns one of the exit codes 0, 1, 4, 5
    and 7.  A URL that fails validation or cannot be reached ends in
    exit code 1 with the lines of an unexpected error, not in 2 or 3:
    validators.py raises classes of its own, which the handlers for the
    classes of exceptions.py do not catch.  The same holds for an error
    of the browser (1, not 8).  A lookup without archive ends in 4, an
    unavailable service in 5, any other error of the service in 7; a
    browser that reports failure ends in 1 without a message; success
    in 0. *)
Theorem main_argv_exit_codes :
  forall (parse_args : list string -> cli.Namespace + Z * trace) env argv t,
    (forall target timeout e,
       requests_head env target timeout = Raise e ->
       issubclass (exn_cls e) RequestException = true) ->
    (forall target timeout e,
       requests_get env target timeout = Raise e ->
       issubclass (exn_cls e) RequestException = true) ->
    let ending := cli.main_argv parse_args argv env t in
    match parse_args argv with
    | inr (status, printed) => ending = (cli.SystemExit status, t ++ printed)
    | inl args =>
        (exists code t', ending = (cli.Ends (Return code), t') /\
                         In code [0; 1; 4; 5; 7]) /\
        match validators.validate_url_with_reachability
                (cli.url args) default_timeout None env t with
        | (Raise e, t1) =>
            ending = (cli.Ends (Return 1), t1 ++ unexpected_error_lines e)
        | (Return validated_url, t1) =>
            match archive_service.get_latest_archive
                    validated_url default_timeout env t1 with
            | (Raise e, t2) =>
                (exn_cls e = ArchiveNotFoundError /\
                 ending =
                   (cli.Ends (Return 4),
                    t2 ++ [ Stderr ("Error: No archived version found for "
                                    +:+ cli.url args);
                            Stderr "Tip: You can try again later as the page might be archived in the future." ])) \/
                (exn_cls e = ArchiveServiceUnavailableError /\
                 ending =
                   (cli.Ends (Return 5),
                    t2 ++ [ Stderr ("Error: Archive.is service unavailable - "
                                    +:+ exn_msg e);
                            Stderr "Tip: Please wait a few minutes and try again." ])) \/
                (exn_cls e = ArchiveServiceError /\
                 ending =
                   (cli.Ends (Return 7),
                    t2 ++ [ Stderr ("Error: Archive service error - " +:+ exn_msg e) ]))
            | (Return archive_url, t2) =>
                match browser_handler.open_url_in_browser archive_url env t2 with
                | (Return (true, _), t3) => ending = (cli.Ends (Return 0), t3)
                | (Return (false, _), t3) => ending = (cli.Ends (Return 1), t3)
                | (Raise e, t3) =>
                    ending = (cli.Ends (Return 1), t3 ++ unexpected_error_lines e)
                end
            end
        end
    end.
Proof.
  intros parse_args env argv t Hhead Hget ending. subst ending.
  destruct (parse_args argv) as [args | [status printed]] eqn:Hparse.
  2:{ unfold cli.main_argv. now rewrite Hparse. }
  destruct (main_parsed_exit_codes env args t Hhead Hget)
    as [(code & t' & Hmain & Hcode) Hstages].
  split.
  { exists code, t'. split; [| exact Hcode].
    exact (main_argv_parsed _ _ _ _ _ _ _ Hparse Hmain). }
  destruct (validators.validate_url_with_reachability
              (cli.url args) default_timeout None env t)
    as [[validated_url | e1] t1].
  2:{ exact (main_argv_parsed _ _ _ _ _ _ _ Hparse Hstages). }
  destruct (archive_service.get_latest_archive validated_url default_timeout env t1)
    as [[archive_url | e2] t2].
  2:{ destruct Hstages as [[Hc Hm] | [[Hc Hm] | [Hc Hm]]];
        [left | right; left | right; right];
        (split; [exact Hc | exact (main_argv_parsed _ _ _ _ _ _ _ Hparse Hm)]). }
  destruct (browser_handler.open_url_in_browser archive_url env t2)
    as [[[[|] note] | e3] t3];
    exact (main_argv_parsed _ _ _ _ _ _ _ Hparse Hstages).
Qed.

Lemma main_argv_exit_codes_witness :
  let env := env_of (Return (mk_Response 404 "https://example.com/missing"))
               (Return (mk_Response 200 "https://archive.is/abc123")) in
  let parse_args (argv : list string) : cli.Namespace + Z * trace :=
    match argv with
    | [given] => inl (cli.mk_Namespace given false)
    | _ => inr (2, [Stderr "usage: archivecli [-h] [-v] [-q] url"])
    end in
  cli.main_argv parse_args [] env [] =
    (cli.SystemExit 2, [Stderr "usage: archivecli [-h] [-v] [-q] url"]) /\
  cli.main_argv parse_args ["not_a_url"%string] env [] =
    (cli.Ends (Return 1),
     unexpected_error_lines (validators.URLValidationError "Invalid URL format")) /\
  cli.main_argv parse_args ["https://example.com/missing"%string] env [] =
    (cli.Ends (Return 1),
     [Head "https://example.com/missing" 10] ++
     unexpected_error_lines (validators.URLReachabilityError "Page not found")).
Proof.
  intros env parse_args.
  assert (Hhead : forall target timeout e,
            requests_head env target timeout = Raise e ->
            issubclass (exn_cls e) RequestException = true) by discriminate.
  assert (Hget : forall target timeout e,
            requests_get env target timeout = Raise e ->
            issubclass (exn_cls e) RequestException = true) by discriminate.
  split; [| split].
  - exact (main_argv_exit_codes parse_args env [] [] Hhead Hget).
  - exact (proj2 (main_argv_exit_codes parse_args env ["not_a_url"%string] []
                    Hhead Hget)).
  - exact (proj2 (main_argv_exit_codes parse_args env
                    ["https://example.com/missing"%string] [] Hhead Hget)).
Defined.


(** *** The library entry point *)

(** X14.  The message of [archive.archive_url], stage by stage, when failing
    requests raise RequestException.  An error of the archive service
    is reported with its own text; an error of validation or of
    reachability, and an error raised by the browser, come with the
    prefix "An unexpected error occurred: ", since their classes are
    not the ones the handlers name; a browser that reports failure
    gives "Failed to open browser: " and its note. *)
Theorem archive_url_messages :
  forall env url quiet t,
    (forall target timeout e,
       requests_head env target timeout = Raise e ->
       issubclass (exn_cls e) RequestException = true) ->
    (forall target timeout e,
       requests_get env target timeout = Raise e ->
       issubclass (exn_cls e) RequestException = true) ->
    match validators.validate_url_with_reachability url default_timeout None env t with
    | (Raise e, t1) =>
        archive.archive_url url quiet env t =
          (Return (false, "An unexpected error occurred: " +:+ exn_msg e), t1)
    | (Return _, t1) =>
        match archive_service.get_latest_archive url default_timeout env t1 with
        | (Raise e, t2) =>
            archive.archive_url url quiet env t = (Return (false, exn_msg e), t2)
        | (Return archived_url, t2) =>
            match browser_handler.open_url_in_browser archived_url env t2 with
            | (Return (true, _), t3) =>
                archive.archive_url url quiet env t =
                  (Return (true, "Successfully opened archived version: "
                                   +:+ archived_url), t3)
            | (Return (false, note), t3) =>
                archive.archive_url url quiet env t =
                  (Return (false, "Failed to open browser: " +:+ note), t3)
            | (Raise e, t3) =>
                archive.archive_url url quiet env t =
                  (Return (false, "An unexpected error occurred: " +:+ exn_msg e), t3)
            end
        end
    end.
Proof.
  intros env url quiet t Hhead Hget.
  unfold archive.archive_url.
  pose proof (validate_url_with_reachability_raises_own env Hhead
                url default_timeout t) as Hval.
  destruct (validators.validate_url_with_reachability url default_timeout None env t)
    as [[final_url | e1] t1] eqn:Hv.
  2:{ rewrite (try_bind_raise _ _ _ _ _ _ _ Hv).
      destruct e1 as [cls msg].
      destruct (Hval _ eq_refl) as [Hc | Hc]; cbn [exn_cls] in Hc; subst cls;
        handled. }
  rewrite (try_bind_return _ _ _ _ _ _ _ Hv).
  pose proof (get_latest_archive_raises env Hget url default_timeout t1) as Hlook.
  destruct (archive_service.get_latest_archive url default_timeout env t1)
    as [[archived_url | e2] t2] eqn:Hl.
  2:{ rewrite (try_bind_raise _ _ _ _ _ _ _ Hl).
      destruct e2 as [cls msg].
      destruct (Hlook _ eq_refl) as [Hc | [Hc | Hc]]; cbn [exn_cls] in Hc; subst cls;
        handled. }
  rewrite (try_bind_return _ _ _ _ _ _ _ Hl).
  pose proof (open_url_in_browser_raises env archived_url t2) as Hopen.
  destruct (browser_handler.open_url_in_browser archived_url env t2)
    as [[[[|] note] | e3] t3] eqn:Ho.
  - rewrite (try_bind_return _ _ _ _ _ _ _ Ho). reflexivity.
  - rewrite (try_bind_return _ _ _ _ _ _ _ Ho).
    unfold try_except, raise. handled.
  - rewrite (try_bind_raise _ _ _ _ _ _ _ Ho).
    destruct e3 as [cls msg]. specialize (Hopen _ eq_refl).
    cbn [exn_cls] in Hopen. subst cls. handled.
Qed.

Lemma archive_url_messages_witness :
  let env := env_of (Return (mk_Response 403 "https://example.com/private"))
               (Return (mk_Response 200 "https://archive.is/abc123")) in
  archive.archive_url "https://example.com/private" false env [] =
    (Return (false, "An unexpected error occurred: Access forbidden"%string),
     [Head "https://example.com/private" 10]).
Proof.
  intros env.
  assert (Hhead : forall target timeout e,
            requests_head env target timeout = Raise e ->
            issubclass (exn_cls e) RequestException = true) by discriminate.
  assert (Hget : forall target timeout e,
            requests_get env target timeout = Raise e ->
            issubclass (exn_cls e) RequestException = true) by discriminate.
  exact (archive_url_messages env "https://example.com/private" false [] Hhead Hget).
Defined.

(** What [get_latest_archive] returns shows the text "archive.is/". *)
Lemma get_latest_archive_returns env url timeout t archive :
  fst (archive_service.get_latest_archive url timeout env t) = Return archive ->
  Str.contains archive "archive.is/" = true.
Proof.
  rewrite get_latest_archive_answer.
  destruct (requests_get env _ timeout) as [response | e].
  - cbv zeta. destruct (requests.status_code response =? 200).
    + destruct (Str.contains (requests.url response) "archive.is/") eqn:Hsub;
        cbn [andb]; [| discriminate].
      case_handler; [intros [= <-]; exact Hsub | discriminate].
    + repeat case_handler; discriminate.
  - case_handler; discriminate.
Qed.

(** X15.  One call of [archive_url] makes at most one HEAD request for the
    URL, then at most one GET request for its search URL, then at most
    one call of the browser, in this order and never a later one
    without the earlier ones; and the browser is only ever opened on a
    text that shows "archive.is/". *)
Theorem archive_url_requests :
  forall env url quiet t,
    let probe := Head url default_timeout in
    let search := Get (archive_service.construct_search_url url) default_timeout in
    exists events,
      snd (archive.archive_url url quiet env t) = t ++ events /\
      (events = [] \/ events = [probe] \/ events = [probe; search] \/
       exists archived_url,
         events = [probe; search; BrowserOpen archived_url] /\
         Str.contains archived_url "archive.is/" = true).
Proof.
  intros env url quiet t probe search.
  unfold archive.archive_url.
  destruct (validate_url_with_reachability_trace env url default_timeout None t)
    as [Htrace Hreturned].
  destruct (validators.validate_url_with_reachability url default_timeout None env t)
    as [[final_url | e1] t1] eqn:Hv; cbn [fst snd] in *.
  2:{ rewrite (try_bind_raise _ _ _ _ _ _ _ Hv).
      destruct (archive_url_handlers_total e1) as [message ->]. cbn [ret snd].
      destruct Htrace as [-> | ->].
      - exists []. split; [now rewrite app_nil_r | auto].
      - exists [probe]. auto. }
  specialize (Hreturned final_url eq_refl). subst t1.
  rewrite (try_bind_return _ _ _ _ _ _ _ Hv).
  pose proof (get_latest_archive_trace env url default_timeout
                (t ++ [Head url default_timeout])) as Hlt.
  pose proof (get_latest_archive_returns env url default_timeout
                (t ++ [Head url default_timeout])) as Hshows.
  destruct (archive_service.get_latest_archive url default_timeout env
              (t ++ [Head url default_timeout]))
    as [[archived_url | e2] t2] eqn:Hl; cbn [fst snd] in *; subst t2.
  2:{ rewrite (try_bind_raise _ _ _ _ _ _ _ Hl).
      destruct (archive_url_handlers_total e2) as [message ->]. cbn [ret snd].
      exists [probe; search]. rewrite <- app_assoc. auto. }
  specialize (Hshows archived_url eq_refl).
  rewrite (try_bind_return _ _ _ _ _ _ _ Hl).
  pose proof (open_url_in_browser_trace env archived_url
                ((t ++ [Head url default_timeout])
                   ++ [Get (archive_service.construct_search_url url) default_timeout]))
    as Hot.
  cbv zeta in Hot.
  assert (Hevents : forall t3,
            t3 = (t ++ [probe]) ++ [search] \/
            t3 = ((t ++ [probe]) ++ [search]) ++ [BrowserOpen archived_url] ->
            exists events,
              t3 = t ++ events /\
              (events = [] \/ events = [probe] \/ events = [probe; search] \/
               exists archived_url0,
                 events = [probe; search; BrowserOpen archived_url0] /\
                 Str.contains archived_url0 "archive.is/" = true)).
  { intros t3 [-> | ->].
    - exists [probe; search]. rewrite <- app_assoc. auto.
    - exists [probe; search; BrowserOpen archived_url].
      rewrite <- !app_assoc. split; [reflexivity |]. do 3 right. eauto. }
  destruct (browser_handler.open_url_in_browser archived_url env _)
    as [[[[|] note] | e3] t3] eqn:Ho; cbn [snd] in Hot.
  - rewrite (try_bind_return _ _ _ _ _ _ _ Ho). cbn [try_except ret snd].
    exact (Hevents t3 Hot).
  - rewrite (try_bind_return _ _ _ _ _ _ _ Ho). unfold try_except, raise.
    match goal with
    | |- context [first_match ?cs ?e] =>
        destruct (archive_url_handlers_total e) as [message ->]
    end.
    cbn [ret snd]. exact (Hevents t3 Hot).
  - rewrite (try_bind_raise _ _ _ _ _ _ _ Ho).
    destruct (archive_url_handlers_total e3) as [message ->]. cbn [ret snd].
    exact (Hevents t3 Hot).
Qed.


(** *** The search URL *)

Lemma unquote_first_quote (c : ascii) (rest : string) :
  unquote_first
    (fold_right (fun b acc => urllib_parse.quote_byte b +:+ acc) rest (Str.utf8 c))
    = Some (c, rest).
Proof. destruct c as [[] [] [] [] [] [] [] []]; reflexivity. Qed.

Lemma quoted_char_quote (c : ascii) (rest : string) :
  Str.forallb quoted_char
    (fold_right (fun b acc => urllib_parse.quote_byte b +:+ acc) rest (Str.utf8 c))
    = Str.forallb quoted_char rest.
Proof. destruct c as [[] [] [] [] [] [] [] []]; reflexivity. Qed.

Lemma quote_inj (s1 s2 : string) :
  urllib_parse.quote s1 = urllib_parse.quote s2 -> s1 = s2.
Proof.
  revert s2. induction s1 as [| c1 s1 IH]; intros [| c2 s2] H.
  - reflexivity.
  - apply (f_equal unquote_first) in H. cbn [urllib_parse.quote] in H.
    rewrite unquote_first_quote in H. discriminate H.
  - apply (f_equal unquote_first) in H. cbn [urllib_parse.quote] in H.
    rewrite unquote_first_quote in H. discriminate H.
  - apply (f_equal unquote_first) in H. cbn [urllib_parse.quote] in H.
    rewrite !unquote_first_quote in H. injection H as -> H.
    f_equal. now apply IH.
Qed.

Lemma quote_chars (s : string) :
  Str.forallb quoted_char (urllib_parse.quote s) = true.
Proof.
  induction s as [| c s IH]; [reflexivity |].
  cbn [urllib_parse.quote]. now rewrite quoted_char_quote.
Qed.

(** X16.  The search URL is the fixed prefix
    "https://archive.is/submit/?url=" followed by an encoding of the
    URL in which only letters, digits, '_', '.', '-', '~' and '%'
    occur, so that no ':', '/', '?', '#' or '&' of the URL is left
    as it was; and different URLs have different search URLs. *)
Theorem construct_search_url_encoding :
  forall url : string,
    (exists encoded,
       archive_service.construct_search_url url
         = "https://archive.is/submit/?url=" +:+ encoded /\
       Str.forallb quoted_char encoded = true) /\
    (forall other,
       archive_service.construct_search_url other
         = archive_service.construct_search_url url ->
       other = url).
Proof.
  intros url. split.
  - exists (urllib_parse.quote url). split; [reflexivity | apply quote_chars].
  - intros other H. unfold archive_service.construct_search_url in H.
    apply String.app_inj in H. apply String.app_inj in H.
    apply String.app_inj in H. now apply quote_inj.
Qed.

Lemma construct_search_url_encoding_witness :
  archive_service.construct_search_url "https://example.com/a b?q=1"
    = "https://archive.is/submit/?url=https%3A%2F%2Fexample.com%2Fa%20b%3Fq%3D1"%string /\
  "https://example.com/a b?q=1"%string = "https://example.com/a b?q=1"%string.
Proof.
  split; [reflexivity |].
  exact (proj2 (construct_search_url_encoding "https://example.com/a b?q=1")
           "https://example.com/a b?q=1"%string eq_refl).
Defined.

(** *** What the pipeline and the entry points leave unchecked *)

(** X17.  The blocklist, the format and the scheme are checked on the URL
    that was given, never on the URL that the redirects lead to: when
    the given URL passes and the probe ends with status 200, the
    pipeline returns the final URL whatever it is, also one that the
    blocklist blocks. *)
Theorem redirect_target_is_not_checked :
  forall env url timeout (self : gset string) t response,
    validators.is_well_formed_url url = Return true ->
    validators.is_valid_scheme url = Return true ->
    domain_blocker.is_domain_blocked self url = Return false ->
    requests_head env url timeout = Return response ->
    requests.status_code response = 200 ->
    validators.validate_url_with_reachability url timeout (Some self) env t =
      (Return (requests.url response), t ++ [Head url timeout]).
Proof.
  intros env url timeout self t response Hwf Hvs Hb Hprobe H200.
  apply validate_url_with_reachability_final_url; trivial.
  now intros s [= <-].
Qed.

Lemma redirect_target_is_not_checked_witness :
  let env := env_of (Return (mk_Response 200 "ftp://www.facebook.com/login"))
               (Raise (mk_exn Timeout "")) in
  validators.validate_url_with_reachability "https://example.com" 10
    (Some domain_blocker.DEFAULT_BLOCKED_DOMAINS) env [] =
    (Return "ftp://www.facebook.com/login"%string, [Head "https://example.com" 10]) /\
  domain_blocker.is_domain_blocked domain_blocker.DEFAULT_BLOCKED_DOMAINS
    "ftp://www.facebook.com/login" = Return true.
Proof.
  intros env. split; [| vm_compute; reflexivity].
  apply (redirect_target_is_not_checked env "https://example.com" 10
           domain_blocker.DEFAULT_BLOCKED_DOMAINS []
           (mk_Response 200 "ftp://www.facebook.com/login"));
    solve [reflexivity | vm_compute; reflexivity].
Defined.

Lemma appends_http_get target timeout : appends (http_get target timeout).
Proof. intros env t. now exists [Get target timeout]. Qed.

#[local] Hint Resolve appends_http_get : appends.

Lemma validate_without_blocklist_probes env url timeout t :
  validators.is_well_formed_url url = Return true ->
  validators.is_valid_scheme url = Return true ->
  snd (validators.validate_url_with_reachability url timeout None env t)
    = t ++ [Head url timeout].
Proof.
  intros Hwf Hvs.
  rewrite (validate_url_with_reachability_passed _ _ _ _ _ Hwf Hvs); [| discriminate].
  assert (Hprobe : snd (validators.check_url_reachability url timeout env t)
                   = t ++ [Head url timeout]).
  { unfold validators.check_url_reachability, try_except, bind, http_head.
    destruct (requests_head env url timeout) as [response | e].
    - repeat case_handler; reflexivity.
    - cbn [first_match]. repeat case_handler; reflexivity. }
  destruct (validators.check_url_reachability url timeout env t) as [[[u r] | e] t'];
    exact Hprobe.
Qed.

(** X18.  Neither [archive.archive_url] nor [cli.main] consults the blocklist:
    for a URL with http or https scheme and a host they send the HEAD
    request also when the default blocklist blocks the URL, where the
    pipeline with that blocklist would have stopped before any
    request. *)
Theorem entry_points_ignore_blocklist :
  forall env url quiet t,
    validators.is_well_formed_url url = Return true ->
    validators.is_valid_scheme url = Return true ->
    domain_blocker.is_domain_blocked domain_blocker.DEFAULT_BLOCKED_DOMAINS url
      = Return true ->
    snd (validators.validate_url_with_reachability url default_timeout
           (Some domain_blocker.DEFAULT_BLOCKED_DOMAINS) env t) = t /\
    (exists rest,
       snd (archive.archive_url url quiet env t)
         = t ++ Head url default_timeout :: rest) /\
    (exists rest,
       snd (cli.main (cli.mk_Namespace url quiet) env t)
         = t ++ Head url default_timeout :: rest).
Proof.
  intros env url quiet t Hwf Hvs Hb.
  split.
  { unfold validators.validate_url_with_reachability, bind, lift.
    now rewrite Hwf, Hvs, Hb. }
  pose proof (validate_without_blocklist_probes env url default_timeout t Hwf Hvs)
    as Hprobe.
  assert (Hafter : forall (A B : Type) (k : string -> M B) (cs : list (clause (M B))),
            (forall a, appends (k a)) ->
            Forall (fun c => forall e, appends (snd c e)) cs ->
            exists rest,
              snd (try_except
                     (bind (validators.validate_url_with_reachability
                              url default_timeout None) k) cs env t)
                = t ++ Head url default_timeout :: rest).
  { intros _ B k cs Hk Hcs.
    destruct (validators.validate_url_with_reachability url default_timeout None env t)
      as [[final_url | e] t1] eqn:Hv; cbn [snd] in Hprobe; subst t1.
    - rewrite (try_bind_return _ _ _ _ _ _ _ Hv).
      destruct (appends_try_except (k final_url) cs (Hk final_url) Hcs env
                  (t ++ [Head url default_timeout])) as [rest ->].
      exists rest. now rewrite <- app_assoc.
    - rewrite (try_bind_raise _ _ _ _ _ _ _ Hv).
      pose proof (appends_first_match cs e Hcs) as Hh.
      destruct (first_match cs e) as [handler |].
      + destruct (Hh env (t ++ [Head url default_timeout])) as [rest ->].
        exists rest. now rewrite <- app_assoc.
      + exists []. reflexivity. }
  split.
  - unfold archive.archive_url. apply (Hafter unit).
    + intros a. repeat appends_step.
    + repeat constructor; intros e; cbn [snd]; repeat appends_step.
  - unfold cli.main. cbn [cli.url]. apply (Hafter unit).
    + intros a. repeat appends_step.
    + repeat constructor; intros e; cbn [snd]; repeat appends_step.
Qed.

Lemma entry_points_ignore_blocklist_witness :
  let env := env_of (Return (mk_Response 200 "https://www.facebook.com/"))
               (Return (mk_Response 404 "https://archive.is/")) in
  exists rest,
    snd (archive.archive_url "https://www.facebook.com/x" false env [])
      = [] ++ Head "https://www.facebook.com/x" default_timeout :: rest.
Proof.
  intros env.
  refine (proj1 (proj2 (entry_points_ignore_blocklist env
                          "https://www.facebook.com/x" false [] eq_refl eq_refl _))).
  vm_compute. reflexivity.
Defined.

(** X19.  A configuration whose 'blocked_domains' is a string instead of a
    list loads without error and adds every character of the string as
    an entry; an object there adds its keys. *)
Theorem load_config_value_not_a_list :
  forall (self : gset string) (config_path : string) (fs : FS) members,
    files fs !! config_path = Some (Document (JDict members)) ->
    (forall text,
       domain_blocker.dict_get members "blocked_domains" (JList []) = JStr text ->
       domain_blocker.load_config self config_path fs
         = (Return tt, self ∪ list_to_set (domain_blocker.chars text))) /\
    (forall inner,
       domain_blocker.dict_get members "blocked_domains" (JList []) = JDict inner ->
       domain_blocker.load_config self config_path fs
         = (Return tt, self ∪ list_to_set (fst <$> inner))).
Proof.
  intros self config_path fs members Hfile.
  unfold domain_blocker.load_config, domain_blocker.read_json. rewrite Hfile.
  cbn [Pure.bind domain_blocker.config_get].
  split; intros v ->; reflexivity.
Qed.

Lemma load_config_value_not_a_list_witness :
  let fs := mk_FS {[ "config.json"%string :=
                       Document (JDict [("blocked_domains"%string, JStr "a.b")]) ]}
              ∅ (fun _ => ""%string) in
  domain_blocker.load_config ∅ "config.json" fs
    = (Return tt, ∅ ∪ list_to_set ["a"; "."; "b"]%string).
Proof.
  intros fs.
  exact (proj1 (load_config_value_not_a_list ∅ "config.json" fs
                  [("blocked_domains"%string, JStr "a.b")]
                  ltac:(vm_compute; reflexivity))
           "a.b"%string eq_refl).
Defined.
